(** * Lowering of functions, returns, member access and parameters

    A shallow embedding of three source files of the compiler:
    - [src/compiler/function.ts]  (module [Compiler], second half),
    - [src/compiler/indexed.ts]   (module [Compiler], first half),
    - [src/TSTransformer/util/transformParameters.ts] (module [TSTransformer]).

    The typed syntax tree of the front end is a family of inductive types
    whose fields are the answers to the queries the compiler asks.  The
    compiler functions that live in other files ([compileExpression],
    [compileCallExpression], the type utilities, ...) are the fields of a
    class of collaborators: every theorem holds for all of them. *)

From Stdlib Require Import String Ascii List Bool Arith ZArith Lia.
From Stdlib Require Import DecimalString.
From Stdlib Require Import Floats.SpecFloat.
Import ListNotations.
Open Scope string_scope.
Set Warnings "-register-all".

(* ===================================================================== *)
(** ** Host-language primitives used by the compiler *)
(* ===================================================================== *)

Module JS.

(** [s.substr(start, len)]: at most [len] characters from [start]; a
    negative [len] is an empty string, which is what truncated
    subtraction on [nat] gives for [length - 4]. *)
Definition substr (start len : nat) (s : string) : string :=
  substring start len s.

(** [s.indexOf(c) !== -1] for a one-character needle. *)
Fixpoint includesChar (c : ascii) (s : string) : bool :=
  match s with
  | EmptyString => false
  | String d r => Ascii.eqb c d || includesChar c r
  end.

Definition isDigit (c : ascii) : bool :=
  (48 <=? nat_of_ascii c)%nat && (nat_of_ascii c <=? 57)%nat.

Fixpoint allDigits (s : string) : bool :=
  match s with
  | EmptyString => true
  | String c r => isDigit c && allDigits r
  end.

(** [s.match(/^_\d+$/)]: an underscore followed by one or more decimal
    digits and nothing else. *)
Definition matchesTempId (s : string) : bool :=
  match s with
  | String "_" (String c r) => isDigit c && allDigits r
  | _ => false
  end.

(** [arr.join(sep)]. *)
Definition join (sep : string) (l : list string) : string :=
  String.concat sep l.

(** [arr[0] = v] on an array: index 0 is overwritten, an empty array
    grows to length one. *)
Definition setFirst {A : Type} (v : A) (arr : list A) : list A :=
  match arr with
  | [] => [v]
  | _ :: rest => v :: rest
  end.

(** [arr.unshift(v)]. *)
Definition unshift {A : Type} (v : A) (arr : list A) : list A := v :: arr.

(** Numbers of the host are IEEE 754 binary64 values. *)
Definition number : Type := spec_float.
Definition prec : Z := 53.
Definition emax : Z := 1024.

Definition ofZ (z : Z) : number := binary_normalize prec emax z 0 false.

(** [value++] adds one in binary64 arithmetic. *)
Definition increment (v : number) : number := SFadd prec emax v (ofZ 1).

(** The characters the emitted text needs and a string literal of this
    file cannot spell. *)
Definition nl : string := String (ascii_of_nat 10) EmptyString.
Definition tab : string := String (ascii_of_nat 9) EmptyString.
Definition quote : string := String (ascii_of_nat 34) EmptyString.

(** Printing of a natural number in decimal, as in a template literal. *)
Definition natToString (n : nat) : string :=
  NilZero.string_of_uint (Nat.to_uint n).

End JS.

(* ===================================================================== *)
(** ** The string-emitting compiler: [src/compiler] *)
(* ===================================================================== *)

Module Compiler.

(** *** The typed syntax tree handed over by the front end *)

Inductive VariableDeclarationKind := Const | Let | Var.

(** The [VariableStatement] above a definition site, with the two facts
    asked about it. *)
Record VariableStatement := {
  hasExportKeyword : bool;
  getDeclarationKind : VariableDeclarationKind }.

(** One entry of [identifier.getDefinitions()]:
    [def.getNode().getFirstAncestorByKind(VariableStatement)], the
    nearest variable statement above the definition site.  The compiler
    reads nothing else; [declaredByAncestor] records whether the site is
    a declaration of that very statement (as [x] in [export let x = 1])
    and not a site nested further down in it (as the parameter [p] in
    [export let f = (p) => p + x]). *)
Record DefinitionInfo := {
  firstVariableStatementAncestor : option VariableStatement;
  declaredByAncestor : bool }.

(** [member.getValue()] of an enum member. *)
Inductive EnumValue :=
| EnumNumber (value : JS.number)
| EnumString (value : string)
| EnumUndefined.

(** [symbol.getValueDeclaration()], by the kinds the compiler tests. *)
Inductive Declaration :=
| FunctionDeclarationDecl
| ArrowFunctionDecl
| FunctionExpressionDecl
| MethodDeclarationDecl
| EnumDeclarationDecl (isConstEnum : bool) (members : list (string * EnumValue))
| ClassDeclarationDecl
| OtherDecl (kindName : string).

Record Symbol := {
  symbolName : string;
  getValueDeclaration : option Declaration }.

(** A type object of the checker.  [typeId] stands for the identity of
    the object, which [===] compares. *)
Record TsType := {
  typeId : nat;
  typeText : string;
  getSymbol : option Symbol;
  typeIsObject : bool }.

Record IdentifierNode := {
  identText : string;
  identType : TsType;
  getDefinitions : list DefinitionInfo }.

Inductive Expression :=
| Identifier (id : IdentifierNode)
| NumericLiteral (text : string) (ty : TsType)
| ArrayLiteralExpression (elements : list Expression) (ty : TsType)
| CallExpression (callee : Expression) (args : list Expression)
                 (ty : TsType) (returnType : TsType)
| ParenthesizedExpression (inner : Expression) (ty : TsType)
| NonNullExpression (inner : Expression) (ty : TsType)
| PropertyAccessExpression (base : Expression) (nameNode : IdentifierNode)
                           (ty : TsType)
| ElementAccessExpression (base : Expression) (argument : Expression)
                          (ty : TsType)
| NewExpression (callee : Expression) (args : list Expression) (ty : TsType)
| SuperExpression (ty : TsType)
| OtherExpression (kindName : string) (ty : TsType).

Definition getType (e : Expression) : TsType :=
  match e with
  | Identifier id => identType id
  | NumericLiteral _ ty
  | ArrayLiteralExpression _ ty
  | CallExpression _ _ ty _
  | ParenthesizedExpression _ ty
  | NonNullExpression _ ty
  | PropertyAccessExpression _ _ ty
  | ElementAccessExpression _ _ ty
  | NewExpression _ _ ty
  | SuperExpression ty
  | OtherExpression _ ty => ty
  end.

(** The [ts.TypeGuards] the two files use on expressions. *)
Definition isNumericLiteral (e : Expression) : bool :=
  match e with NumericLiteral _ _ => true | _ => false end.
Definition isArrayLiteralExpression (e : Expression) : bool :=
  match e with ArrayLiteralExpression _ _ => true | _ => false end.
Definition isCallExpression (e : Expression) : bool :=
  match e with CallExpression _ _ _ _ => true | _ => false end.
Definition isSuperExpression (e : Expression) : bool :=
  match e with SuperExpression _ => true | _ => false end.
Definition isPropertyAccessExpression (e : Expression) : bool :=
  match e with PropertyAccessExpression _ _ _ => true | _ => false end.

(** Kinds of the nodes that carry a parameter list ([HasParameters]). *)
Inductive FunctionKind :=
| FunctionExpressionKind
| ArrowFunctionKind
| FunctionDeclarationKind
| ConstructorDeclarationKind
| MethodDeclarationKind
| GetAccessorDeclarationKind
| SetAccessorDeclarationKind.

(** A declared parameter: the first [Identifier] child (its text and
    type), and the name and type of the parameter itself. *)
Record ParameterDeclaration := {
  firstIdentifierChild : option IdentifierNode;
  paramName : string;
  paramType : TsType }.

(** A function-like node, without its body (the body is a separate
    argument of the functions below).  [classParent] is the type of the
    first [ClassDeclaration] ancestor or, failing that, of the first
    [ClassExpression] ancestor. *)
Record HasParameters := {
  kind : FunctionKind;
  isAsync : bool;
  isGenerator : bool;
  getParameters : list ParameterDeclaration;
  classParent : option TsType;
  getNameNode : option IdentifierNode;
  getReturnType : TsType }.

(** An entry of [node.getAncestors()], innermost first. *)
Inductive Ancestor :=
| FunctionLikeAncestor (f : HasParameters)
| OtherAncestor (kindName : string).

Record ReturnStatementNode := {
  getExpression : option Expression;
  getAncestors : list Ancestor }.

(** The statements told apart by the three files; an [if] carries the
    statements of its two branches. *)
Inductive Statement :=
| ExpressionStatement (e : Expression)
| ReturnStatement (r : ReturnStatementNode)
| IfStatement (condition : Expression)
              (thenStatements elseStatements : list Statement)
| OtherStatement (kindName : string).

Inductive Body :=
| BlockBody (statements : list Statement)
| ExpressionBody (e : Expression)
| OtherBody (kindName : string).

(** The node a diagnostic points at. *)
Inductive Node :=
| ExpressionNode (e : Expression)
| IdentifierNameNode (id : IdentifierNode)
| StatementNode (s : Statement)
| FunctionLikeNode (f : HasParameters).

(** *** Diagnostics *)

Inductive CompilerErrorType :=
| BadFunctionBody
| InvalidMacroIndex
| NoFunctionIndex
| NoClassPrototype
| NoConstructorReturn
| OtherErrorType (tag : string).

Record CompilerError := {
  message : string;
  errorNode : Node;
  errorType : CompilerErrorType }.

(** What a call can throw: a [CompilerError], or an error raised by the
    host or the front end library (an [...OrThrow] query, a method call
    on [undefined]). *)
Inductive Exception :=
| CompilerErrorExn (e : CompilerError)
| HostError (what : string).

(** The macro classes of a property access, from the enumeration
    [PropertyCallExpType]; the source names three of its members. *)
Inductive PropertyCallExpType :=
| PropertyNone
| PropertyString
| PropertyArray
| PropertyOtherMacro (tag : string).

Definition PropertyCallExpType_eqb (a b : PropertyCallExpType) : bool :=
  match a, b with
  | PropertyNone, PropertyNone => true
  | PropertyString, PropertyString => true
  | PropertyArray, PropertyArray => true
  | PropertyOtherMacro s, PropertyOtherMacro t => String.eqb s t
  | _, _ => false
  end.

(** *** The lowering context *)

(** Modelled from the spec: the class [CompilerState] is not among the
    source files.  Section 3 and 4.1 of the specification describe it: a
    scope stack with a fresh-id counter per frame, a hoist registry, a
    stack of preceding-statement buffers and the current indentation.
    Every stack has its innermost frame at the head of the list; a
    buffer lists its statements in emission order. *)
Record CompilerState := {
  indent : string;
  idStack : list nat;
  precedingStatementContexts : list (list string);
  hoistStack : list (list string);
  usesTSLibrary : bool }.

Inductive Result (A : Type) :=
| Ok (a : A) (st : CompilerState)
| Throw (e : Exception) (st : CompilerState).
Arguments Ok {A} a st.
Arguments Throw {A} e st.

(** A compiler action: it reads and updates the state, and returns a
    value or throws. *)
Definition M (A : Type) : Type := CompilerState -> Result A.

Definition ret {A : Type} (a : A) : M A := fun st => Ok a st.

Definition bind {A B : Type} (c : M A) (k : A -> M B) : M B :=
  fun st =>
    match c st with
    | Ok a st' => k a st'
    | Throw e st' => Throw e st'
    end.

Definition throw {A : Type} (e : Exception) : M A := fun st => Throw e st.

Definition throwCompilerError {A : Type}
  (msg : string) (n : Node) (t : CompilerErrorType) : M A :=
  throw (CompilerErrorExn
           {| message := msg; errorNode := n; errorType := t |}).

Definition gets {A : Type} (f : CompilerState -> A) : M A :=
  fun st => Ok (f st) st.

Definition modify (f : CompilerState -> CompilerState) : M unit :=
  fun st => Ok tt (f st).

(** A check that only throws: [None] lets the caller go on. *)
Definition liftCheck (c : option CompilerError) : M unit :=
  match c with
  | None => ret tt
  | Some e => throw (CompilerErrorExn e)
  end.

Declare Scope compiler_scope.
Delimit Scope compiler_scope with compiler.
Notation "x <- c ;; k" := (bind c (fun x => k))
  (at level 61, c at next level, right associativity) : compiler_scope.
Notation "c ;;; k" := (bind c (fun _ => k))
  (at level 61, right associativity) : compiler_scope.
Open Scope compiler_scope.

Definition withIndent (f : string -> string) (st : CompilerState) :=
  {| indent := f (indent st);
     idStack := idStack st;
     precedingStatementContexts := precedingStatementContexts st;
     hoistStack := hoistStack st;
     usesTSLibrary := usesTSLibrary st |}.

Definition withIdStack (f : list nat -> list nat) (st : CompilerState) :=
  {| indent := indent st;
     idStack := f (idStack st);
     precedingStatementContexts := precedingStatementContexts st;
     hoistStack := hoistStack st;
     usesTSLibrary := usesTSLibrary st |}.

Definition withContexts
  (f : list (list string) -> list (list string)) (st : CompilerState) :=
  {| indent := indent st;
     idStack := idStack st;
     precedingStatementContexts := f (precedingStatementContexts st);
     hoistStack := hoistStack st;
     usesTSLibrary := usesTSLibrary st |}.

Definition withHoistStack
  (f : list (list string) -> list (list string)) (st : CompilerState) :=
  {| indent := indent st;
     idStack := idStack st;
     precedingStatementContexts := precedingStatementContexts st;
     hoistStack := f (hoistStack st);
     usesTSLibrary := usesTSLibrary st |}.

Definition setUsesTSLibrary (st : CompilerState) :=
  {| indent := indent st;
     idStack := idStack st;
     precedingStatementContexts := precedingStatementContexts st;
     hoistStack := hoistStack st;
     usesTSLibrary := true |}.

Definition pushIndent : M unit :=
  modify (withIndent (fun s => s ++ JS.tab)).
Definition popIndent : M unit :=
  modify (withIndent (fun s => JS.substr 1 (String.length s) s)).

Definition pushIdStack : M unit := modify (withIdStack (cons 0)).
Definition popIdStack : M unit := modify (withIdStack (@tl nat)).

(** [freshName()]: the sum of the counters of the active frames, printed
    after an underscore; the innermost counter is advanced. *)
Definition getNewId : M string :=
  fun st =>
    match idStack st with
    | [] => Throw (HostError "getNewId: no identifier frame") st
    | top :: rest =>
        Ok ("_" ++ JS.natToString (list_sum (top :: rest)))
           (withIdStack (fun _ => S top :: rest) st)
    end.

Definition enterPrecedingStatementContext : M unit :=
  modify (withContexts (cons [])).

Definition exitPrecedingStatementContextAndJoin : M string :=
  fun st =>
    match precedingStatementContexts st with
    | [] => Throw (HostError "no preceding statement context") st
    | top :: rest =>
        Ok (JS.join EmptyString top) (withContexts (fun _ => rest) st)
    end.

(** Statements go to the innermost buffer, after the ones already there. *)
Definition pushPrecedingStatements (n : Node) (s : string) : M unit :=
  fun st =>
    match precedingStatementContexts st with
    | [] => Throw (HostError "no preceding statement context") st
    | top :: rest =>
        Ok tt (withContexts (fun _ => (top ++ [s])%list :: rest) st)
    end.

(** Extraction of an expression text into a fresh local, declared in the
    innermost buffer; the name of the local is returned. *)
Definition pushPrecedingStatementToNextId (n : Node) (source : string)
  : M string :=
  newId <- getNewId ;;
  ind <- gets indent ;;
  pushPrecedingStatements n
    (ind ++ "local " ++ newId ++ " = " ++ source ++ ";" ++ JS.nl) ;;;
  ret newId.

Definition pushHoistStack (name : string) : M unit :=
  modify (withHoistStack
            (fun h => match h with
                      | [] => [[name]]
                      | top :: rest => (top ++ [name])%list :: rest
                      end)).

(** *** Collaborators *)

(** What [getParameterData] pushes onto the three arrays it is given. *)
Record ParameterData := {
  pushedNames : list string;
  pushedInitializers : list string;
  pushedDefaults : list string }.

(** The functions of the compiler that live in other files, and the two
    conversions of the host between numbers and their spelling
    ([Number(text)] and [value.toString()]).  A function that receives
    the state is an action; a check that receives none can only throw.
    [getParameterData] fills the arrays it is given by pushing onto
    them: [getParameterData node withDefaults] returns what the call
    pushes, and [withDefaults] tells whether a [defaults] array was
    passed.  [compileCallExpression exp doNotWrapTupleReturn] has the
    flag of the source as its second argument. *)
Class Collaborators := {
  compileExpression : Expression -> M string;
  compileCallExpression : Expression -> bool -> M string;
  compileNumericLiteral : Expression -> M string;
  compileBlock : list Statement -> M string;
  compileStatement : Statement -> M string;
  getParameterData : HasParameters -> bool -> M ParameterData;
  getPropertyAccessExpressionType : Expression -> M PropertyCallExpType;
  checkApiAccess : IdentifierNode -> M unit;
  checkNonAny : Node -> option CompilerError;
  checkReturnsNonAny : HasParameters -> option CompilerError;
  isArrayType : TsType -> bool;
  isNumberType : TsType -> bool;
  inheritsFrom : TsType -> string -> bool;
  isTupleReturnType : HasParameters -> bool;
  isTupleReturnTypeCall : Expression -> bool;
  isIterableIterator : TsType -> HasParameters -> option CompilerError;
  shouldHoist : HasParameters -> IdentifierNode -> bool;
  safeLuaIndex : string -> string -> string;
  toNumber : string -> JS.number;
  numberToString : JS.number -> string }.

Section Lowering.

Context {collab : Collaborators}.

(** *** [indexed.ts] *)

(** [isIdentifierDefinedInConst], lines 16-25. *)
Definition isIdentifierDefinedInConst (exp : IdentifierNode) : bool :=
  existsb
    (fun def =>
       match firstVariableStatementAncestor def with
       | Some definition =>
           match getDeclarationKind definition with
           | Const => true
           | _ => false
           end
       | None => false
       end)
    (getDefinitions exp).

(** [isIdentifierDefinedInExportLet], lines 27-40. *)
Definition isIdentifierDefinedInExportLet (exp : IdentifierNode) : bool :=
  existsb
    (fun def =>
       match firstVariableStatementAncestor def with
       | Some definition =>
           hasExportKeyword definition &&
           match getDeclarationKind definition with
           | Let => true
           | _ => false
           end
       | None => false
       end)
    (getDefinitions exp).

(** [getWritableOperandName], lines 46-63.  [child] is the first child
    of the access, its base expression. *)
Definition getWritableOperandName (operand : Expression) : M string :=
  match operand with
  | PropertyAccessExpression child nameNode _ =>
      if isPropertyAccessExpression child ||
         match child with
         | Identifier id => isIdentifierDefinedInExportLet id
         | _ => false
         end
      then
        opExpStr <- compileExpression child ;;
        let propertyStr := identText nameNode in
        id <- pushPrecedingStatementToNextId (ExpressionNode operand) opExpStr ;;
        ret (id ++ "." ++ propertyStr)
      else compileExpression operand
  | _ => compileExpression operand
  end.

(** [getReadableExpressionName], lines 68-74. *)
Definition getReadableExpressionName (exp : Expression) (expStr : string)
  : M string :=
  if JS.matchesTempId expStr ||
     match exp with
     | Identifier id => negb (isIdentifierDefinedInExportLet id)
     | _ => false
     end
  then ret expStr
  else pushPrecedingStatementToNextId (ExpressionNode exp) expStr.

(** [valDec.getMemberOrThrow(name).getValue()]. *)
Fixpoint getMember (members : list (string * EnumValue)) (name : string)
  : option EnumValue :=
  match members with
  | [] => None
  | (n, v) :: rest => if String.eqb n name then Some v else getMember rest name
  end.

(** [compilePropertyAccessExpression], lines 76-146.  The node is given
    by its parts: the base [exp], the name node and the type. *)
Definition compilePropertyAccessExpression
  (exp : Expression) (nameNode : IdentifierNode) (ty : TsType) : M string :=
  let node := PropertyAccessExpression exp nameNode ty in
  expStr <- compileExpression exp ;;
  let propertyStr := identText nameNode in
  propertyAccessExpressionType <- getPropertyAccessExpressionType node ;;
  if (PropertyCallExpType_eqb propertyAccessExpressionType PropertyString ||
      PropertyCallExpType_eqb propertyAccessExpressionType PropertyArray) &&
     String.eqb propertyStr "length"
  then ret ("(#" ++ expStr ++ ")")
  else if negb (PropertyCallExpType_eqb propertyAccessExpressionType PropertyNone)
  then
    throwCompilerError
      ("Invalid property access! Cannot index non-member " ++ JS.quote ++
       propertyStr ++ JS.quote ++ " (a roblox-ts macro function)")
      (ExpressionNode node) InvalidMacroIndex
  else
    checkApiAccess nameNode ;;;
    liftCheck (checkNonAny (ExpressionNode exp)) ;;;
    liftCheck (checkNonAny (IdentifierNameNode nameNode)) ;;;
    if isSuperExpression exp then
      match getSymbol (getType exp) with
      | None => throw (HostError "getSymbolOrThrow")
      | Some baseClass =>
          let baseClassName := symbolName baseClass in
          let indexA := safeLuaIndex (baseClassName ++ "._getters") propertyStr in
          let indexB := safeLuaIndex "self" propertyStr in
          ret ("(" ++ indexA ++ " and function(self) return " ++ indexA ++
               "(self) end or function() return " ++ indexB ++ " end)(self)")
      end
    else
      let plain := ret (expStr ++ "." ++ propertyStr) in
      match getSymbol (getType exp) with
      | None => plain
      | Some symbol =>
          match getValueDeclaration symbol with
          | None => plain
          | Some valDec =>
              match valDec with
              | FunctionDeclarationDecl
              | ArrowFunctionDecl
              | FunctionExpressionDecl
              | MethodDeclarationDecl =>
                  throwCompilerError "Cannot index a function value!"
                    (ExpressionNode node) NoFunctionIndex
              | EnumDeclarationDecl isConstEnum members =>
                  if isConstEnum then
                    match getMember members propertyStr with
                    | None => throw (HostError "getMemberOrThrow")
                    | Some (EnumNumber value) => ret (numberToString value)
                    | Some (EnumString value) =>
                        ret (JS.quote ++ value ++ JS.quote)
                    | Some EnumUndefined => plain
                    end
                  else plain
              | ClassDeclarationDecl =>
                  if String.eqb propertyStr "prototype" then
                    throwCompilerError "Class prototypes are not supported!"
                      (ExpressionNode node) NoClassPrototype
                  else plain
              | OtherDecl _ => plain
              end
          end
      end.

(** [expNode.getReturnType()], asked of call expressions only. *)
Definition callReturnType (e : Expression) : TsType :=
  match e with
  | CallExpression _ _ _ returnType => returnType
  | _ => getType e
  end.

(** [isNumericLiteral(argExp) && argExp.getText().indexOf("e") === -1] *)
Definition isFoldableLiteral (argExp : Expression) : bool :=
  match argExp with
  | NumericLiteral text _ => negb (JS.includesChar "e" text)
  | _ => false
  end.

(** [compileElementAccessExpression], lines 148-209.  The node is given
    by its base [expNode] and its argument [argExp]. *)
Definition compileElementAccessExpression
  (expNode argExp : Expression) : M string :=
  let expType := getType expNode in
  let addOne :=
    if isNumberType (getType argExp) then
      if isArrayType expType then true
      else if isCallExpression expNode &&
              (isTupleReturnTypeCall expNode ||
               isArrayType (callReturnType expNode))
      then true
      else false
    else false in
  argExpStr <-
    (if isFoldableLiteral argExp then
       literal <- compileNumericLiteral argExp ;;
       let value := toNumber literal in
       let value := if addOne then JS.increment value else value in
       ret (numberToString value)
     else
       let offset := if addOne then " + 1" else EmptyString in
       compiled <- compileExpression argExp ;;
       ret (compiled ++ offset)) ;;
  if isCallExpression expNode && isTupleReturnTypeCall expNode then
    expStr <- compileCallExpression expNode true ;;
    liftCheck (checkNonAny (ExpressionNode expNode)) ;;;
    liftCheck (checkNonAny (ExpressionNode argExp)) ;;;
    if String.eqb argExpStr "1" then ret ("(" ++ expStr ++ ")")
    else ret ("(select(" ++ argExpStr ++ ", " ++ expStr ++ "))")
  else
    expStr <- compileExpression expNode ;;
    liftCheck (checkNonAny (ExpressionNode expNode)) ;;;
    liftCheck (checkNonAny (ExpressionNode argExp)) ;;;
    let isArrayLiteral :=
      if isArrayLiteralExpression expNode then true
      else
        match expNode with
        | NewExpression subExpNode _ _ =>
            let subExpType := getType subExpNode in
            typeIsObject subExpType &&
            inheritsFrom subExpType "ArrayConstructor"
        | _ => false
        end in
    if isArrayLiteral then ret ("(" ++ expStr ++ ")[" ++ argExpStr ++ "]")
    else ret (expStr ++ "[" ++ argExpStr ++ "]").

(** *** [function.ts] *)

(** The seven type guards of [getFirstMemberWithParameters]. *)
Definition isFunctionLikeKind (k : FunctionKind) : bool :=
  match k with
  | FunctionExpressionKind
  | ArrowFunctionKind
  | FunctionDeclarationKind
  | ConstructorDeclarationKind
  | MethodDeclarationKind
  | GetAccessorDeclarationKind
  | SetAccessorDeclarationKind => true
  end.

(** [getFirstMemberWithParameters], lines 16-31. *)
Fixpoint getFirstMemberWithParameters (nodes : list Ancestor)
  : option HasParameters :=
  match nodes with
  | [] => None
  | FunctionLikeAncestor f :: rest =>
      if isFunctionLikeKind (kind f) then Some f
      else getFirstMemberWithParameters rest
  | OtherAncestor _ :: rest => getFirstMemberWithParameters rest
  end.

(** The loop of lines 34-36, which drops parentheses and non-null
    assertions. *)
Fixpoint skipParentheses (exp : Expression) : Expression :=
  match exp with
  | ParenthesizedExpression inner _ => skipParentheses inner
  | NonNullExpression inner _ => skipParentheses inner
  | _ => exp
  end.

(** [getReturnStrFromExpression], lines 33-71. *)
Definition getReturnStrFromExpression
  (exp0 : Expression) (func : option HasParameters) : M string :=
  let exp := skipParentheses exp0 in
  if match func with
     | Some f => isTupleReturnType f
     | None => false
     end
  then
    if isArrayLiteralExpression exp then
      expStr <- compileExpression exp ;;
      let expStr := JS.substr 2 (String.length expStr - 4) expStr in
      ret ("return " ++ expStr ++ ";")
    else if isCallExpression exp && isTupleReturnTypeCall exp then
      expStr <- compileCallExpression exp true ;;
      ret ("return " ++ expStr ++ ";")
    else
      expStr <- compileExpression exp ;;
      ret ("return unpack(" ++ expStr ++ ");")
  else
    expStr <- compileExpression exp ;;
    ret ("return " ++ expStr ++ ";").

(** [compileReturnStatement], lines 73-82. *)
Definition compileReturnStatement (node : ReturnStatementNode) : M string :=
  match getExpression node with
  | Some exp =>
      enterPrecedingStatementContext ;;;
      returnStr <- getReturnStrFromExpression exp
                     (getFirstMemberWithParameters (getAncestors node)) ;;
      preceding <- exitPrecedingStatementContextAndJoin ;;
      ind <- gets indent ;;
      ret (preceding ++ ind ++ returnStr ++ JS.nl)
  | None =>
      ind <- gets indent ;;
      ret (ind ++ "return nil;" ++ JS.nl)
  end.

(** [list.forEach(s => (result += state.indent + s + "\n"))] *)
Definition indentedLines (ind : string) (lines : list string) : string :=
  fold_left (fun result line => result ++ ind ++ line ++ JS.nl)
            lines EmptyString.

(** [list.forEach(s => (result += s))] *)
Definition rawLines (lines : list string) : string :=
  fold_left (fun result line => result ++ line) lines EmptyString.

(** [compileFunctionBody], lines 84-106. *)
Definition compileFunctionBody
  (body : Body) (node : HasParameters) (initializers : list string)
  : M string :=
  match body with
  | OtherBody kindName =>
      throwCompilerError ("Bad function body (" ++ kindName ++ ")")
        (FunctionLikeNode node) BadFunctionBody
  | _ =>
      let result := JS.nl in
      pushIndent ;;;
      ind <- gets indent ;;
      let result := result ++ indentedLines ind initializers in
      rest <-
        match body with
        | BlockBody statements => compileBlock statements
        | ExpressionBody e =>
            enterPrecedingStatementContext ;;;
            returnStr <- getReturnStrFromExpression e (Some node) ;;
            preceding <- exitPrecedingStatementContextAndJoin ;;
            ind' <- gets indent ;;
            ret (preceding ++ ind' ++ returnStr ++ JS.nl)
        | OtherBody _ => ret EmptyString
        end ;;
      let result := result ++ rest in
      popIndent ;;;
      ind'' <- gets indent ;;
      ret (result ++ ind'')
  end.

Definition isMethodLike (node : HasParameters) : bool :=
  match kind node with
  | MethodDeclarationKind
  | GetAccessorDeclarationKind
  | SetAccessorDeclarationKind => true
  | _ => false
  end.

(** [node.getParameter("this")] *)
Definition getParameter (node : HasParameters) (name : string)
  : option ParameterDeclaration :=
  find (fun p => String.eqb (paramName p) name) (getParameters node).

(** [giveInitialSelfParameter], lines 184-213: the array of names after
    the call. *)
Definition giveInitialSelfParameter
  (node : HasParameters) (paramNames : list string) : list string :=
  let parameters := getParameters node in
  let replacedThis :=
    match parameters with
    | [] => false
    | first :: _ =>
        match classParent node, firstIdentifierChild first with
        | Some classType, Some child =>
            String.eqb (identText child) "this" &&
            (String.eqb (typeText (identType child)) "this" ||
             Nat.eqb (typeId (identType child)) (typeId classType))
        | _, _ => false
        end
    end in
  if replacedThis then JS.setFirst "self" paramNames
  else
    match getParameter node "this" with
    | None => JS.unshift "self" paramNames
    | Some thisParam =>
        if negb (String.eqb (typeText (paramType thisParam)) "void")
        then JS.unshift "self" paramNames
        else paramNames
    end.

(** The generator marker as [compileFunction] reads it: never on an
    accessor or a constructor, never on an arrow function. *)
Definition isGeneratorFunction (node : HasParameters) : bool :=
  match kind node with
  | GetAccessorDeclarationKind
  | SetAccessorDeclarationKind
  | ConstructorDeclarationKind => false
  | ArrowFunctionKind => false
  | _ => isGenerator node
  end.

(** The async marker as [compileFunction] reads it: never on an accessor
    or a constructor. *)
Definition wrapsAsync (node : HasParameters) : bool :=
  match kind node with
  | GetAccessorDeclarationKind
  | SetAccessorDeclarationKind
  | ConstructorDeclarationKind => false
  | _ => isAsync node
  end.

(** [compileFunction], lines 108-182. *)
Definition compileFunction
  (node : HasParameters) (name : string) (body : Body) : M string :=
  pushIdStack ;;;
  data <- getParameterData node false ;;
  let paramNames := pushedNames data in
  let initializers := pushedInitializers data in
  liftCheck (checkReturnsNonAny node) ;;;
  let paramNames :=
    if isMethodLike node then giveInitialSelfParameter node paramNames
    else paramNames in
  prefix <-
    match kind node with
    | FunctionDeclarationKind =>
        match getNameNode node with
        | Some nameNode =>
            if shouldHoist node nameNode
            then pushHoistStack name ;;; ret EmptyString
            else ret "local "
        | None => ret "local "
        end
    | _ => ret EmptyString
    end ;;
  ind <- gets indent ;;
  let named := negb (String.eqb name EmptyString) in
  let result := if named then ind ++ prefix ++ name ++ " = " else EmptyString in
  let backWrap := if named then ";" ++ JS.nl else EmptyString in
  (if wrapsAsync node then modify setUsesTSLibrary else ret tt) ;;;
  let result := if wrapsAsync node then result ++ "TS.async(" else result in
  let backWrap := if wrapsAsync node then ")" ++ backWrap else backWrap in
  let result := result ++ "function(" ++ JS.join ", " paramNames ++ ")" in
  result <-
    (if isGeneratorFunction node then
       liftCheck (isIterableIterator (getReturnType node) node) ;;;
       let result := result ++ JS.nl in
       pushIndent ;;;
       ind1 <- gets indent ;;
       let result := result ++ ind1 ++ "return {" ++ JS.nl in
       pushIndent ;;;
       ind2 <- gets indent ;;
       let result := result ++ ind2 ++ "next = coroutine.wrap(function()" in
       bodyStr <- compileFunctionBody body node initializers ;;
       let result := result ++ bodyStr in
       let result :=
         result ++ JS.tab ++
         "repeat coroutine.yield({ done = true }) until false;" ++ JS.nl in
       ind3 <- gets indent ;;
       let result := result ++ ind3 ++ "end);" ++ JS.nl in
       popIndent ;;;
       ind4 <- gets indent ;;
       let result := result ++ ind4 ++ "};" ++ JS.nl in
       popIndent ;;;
       ind5 <- gets indent ;;
       ret (result ++ ind5)
     else
       bodyStr <- compileFunctionBody body node initializers ;;
       ret (result ++ bodyStr)) ;;
  popIdStack ;;;
  ret (result ++ "end" ++ backWrap).

(** [compileAccessorDeclaration], lines 323-333. *)
Definition compileAccessorDeclaration
  (node : HasParameters) (body : option Body) (name : string) : M string :=
  match body with
  | None => ret EmptyString
  | Some b => compileFunction node name b
  end.

(** [containsSuperExpression], lines 239-250. *)
Definition containsSuperExpression (child : option Statement) : bool :=
  match child with
  | Some (ExpressionStatement exp) =>
      match exp with
      | CallExpression superExp _ _ _ => isSuperExpression superExp
      | _ => false
      end
  | _ => false
  end.

(** [result += compileStatement(state, s)] over a run of statements. *)
Fixpoint compileStatements (l : list Statement) : M string :=
  match l with
  | [] => ret EmptyString
  | s :: rest =>
      first <- compileStatement s ;;
      others <- compileStatements rest ;;
      ret (first ++ others)
  end.

(** [node.getStatementByKind(SyntaxKind.ReturnStatement)]: the first
    statement of the body that is a return statement.  The statements
    of the body are looked at, not what is nested in them. *)
Definition getReturnStatement (statements : list Statement)
  : option Statement :=
  find (fun s => match s with ReturnStatement _ => true | _ => false end)
       statements.

(** [compileConstructorDeclaration], lines 252-321.  The constructor
    node comes with its body ([None] when it has none);
    [extraInitializers] and [hasSuper] are optional in the source, an
    absent [hasSuper] counts as false. *)
Definition compileConstructorDeclaration
  (className : string) (node : option (HasParameters * option Body))
  (extraInitializers : option (list string)) (hasSuper : bool) : M string :=
  let paramNames := ["self"] in
  pushIdStack ;;;
  data <-
    match node with
    | Some (n, _) => getParameterData n true
    | None =>
        ret {| pushedNames := ["..."];
               pushedInitializers := [];
               pushedDefaults := [] |}
    end ;;
  let paramNames := (paramNames ++ pushedNames data)%list in
  let initializers := pushedInitializers data in
  let defaults := pushedDefaults data in
  let paramStr := JS.join ", " paramNames in
  ind <- gets indent ;;
  let result :=
    ind ++ className ++ ".constructor = function(" ++ paramStr ++ ")" ++ JS.nl in
  pushIndent ;;;
  inner <-
    match node with
    | Some (n, optBody) =>
        match optBody with
        | None => throw (HostError "getBodyOrThrow")
        | Some (BlockBody bodyStatements) =>
            ind1 <- gets indent ;;
            let r := indentedLines ind1 defaults in
            let hasSuperCall := containsSuperExpression (hd_error bodyStatements) in
            superStr <-
              (if hasSuperCall then
                 match bodyStatements with
                 | s :: _ => compileStatement s
                 | [] => ret EmptyString
                 end
               else ret EmptyString) ;;
            let remaining :=
              if hasSuperCall then tl bodyStatements else bodyStatements in
            ind2 <- gets indent ;;
            let r := r ++ superStr ++ indentedLines ind2 initializers in
            let r :=
              match extraInitializers with
              | Some extra => r ++ rawLines extra
              | None => r
              end in
            restStr <- compileStatements remaining ;;
            let r := r ++ restStr in
            match getReturnStatement bodyStatements with
            | Some returnStatement =>
                throwCompilerError
                  ("Cannot use return statement in constructor for " ++ className)
                  (StatementNode returnStatement) NoConstructorReturn
            | None => ret r
            end
        | Some _ => ret EmptyString
        end
    | None =>
        ind1 <- gets indent ;;
        let r :=
          if hasSuper then ind1 ++ "super.constructor(self, ...);" ++ JS.nl
          else EmptyString in
        ret match extraInitializers with
            | Some extra => r ++ rawLines extra
            | None => r
            end
    end ;;
  let result := result ++ inner in
  ind3 <- gets indent ;;
  let result := result ++ ind3 ++ "return self;" ++ JS.nl in
  popIndent ;;;
  popIdStack ;;;
  ind4 <- gets indent ;;
  ret (result ++ ind4 ++ "end;" ++ JS.nl).

End Lowering.

End Compiler.

(* ===================================================================== *)
(** ** The tree-emitting transformer: [src/TSTransformer] *)
(* ===================================================================== *)

Module TSTransformer.

(** *** Source side *)

Record TsIdentifier := { tsText : string }.

Inductive TsExpression :=
| TsIdentifierExpression (id : TsIdentifier)
| TsNumericLiteral (text : string)
| TsBinaryExpression (left : TsExpression) (operator : string)
                     (right : TsExpression)
| TsOtherExpression (kindName : string).

(** [tsParam.name] is an identifier or a destructuring pattern. *)
Inductive BindingName :=
| IdentifierName (id : TsIdentifier)
| BindingPattern.

Record ParameterDeclaration := {
  name : BindingName;
  dotDotDotToken : bool;
  initializer : option TsExpression }.

(** *** Target side: the nodes of [LuaAST] the file creates *)

Record Identifier := { luaName : string }.

Inductive Expression :=
| IdentifierExpression (id : Identifier)
| NilLiteral
| NumberLiteral (text : string)
| BinaryExpression (left : Expression) (operator : string) (right : Expression)
| Array (members : list Expression)
| VarArgsLiteral.

Inductive Statement :=
| IfStatement (condition : Expression) (statements : list Statement)
              (elseBody : list Statement)
| Assignment (left : Identifier) (right : Expression)
| VariableDeclaration (left : Identifier) (right : Expression).

(** *** The transform state *)

(** Modelled from the spec: the class [TransformState] is not among the
    source files.  Section 4.1 of the specification describes its
    side-effect buffers: a stack of statement lists, the innermost of
    which receives every statement emitted while it is active, returned
    to the caller on exit.  The innermost buffer is the head of the
    list; a buffer lists its statements in emission order. *)
Record TransformState := {
  prereqStatementsStack : list (list Statement) }.

Inductive Result (A : Type) :=
| Ok (a : A) (st : TransformState)
| Throw (what : string) (st : TransformState).
Arguments Ok {A} a st.
Arguments Throw {A} what st.

Definition T (A : Type) : Type := TransformState -> Result A.

Definition ret {A : Type} (a : A) : T A := fun st => Ok a st.

Definition bind {A B : Type} (c : T A) (k : A -> T B) : T B :=
  fun st =>
    match c st with
    | Ok a st' => k a st'
    | Throw e st' => Throw e st'
    end.

Definition throw {A : Type} (what : string) : T A := fun st => Throw what st.

Declare Scope transform_scope.
Delimit Scope transform_scope with transform.
Notation "x <- c ;; k" := (bind c (fun x => k))
  (at level 61, c at next level, right associativity) : transform_scope.
Notation "c ;;; k" := (bind c (fun _ => k))
  (at level 61, right associativity) : transform_scope.
Open Scope transform_scope.

(** [state.prereq(statement)]: append to the innermost buffer. *)
Definition prereq (s : Statement) : T unit :=
  fun st =>
    match prereqStatementsStack st with
    | [] => Throw "prereq: no buffer" st
    | top :: rest =>
        Ok tt {| prereqStatementsStack := (top ++ [s])%list :: rest |}
    end.

Definition pushPrereqStatementsStack : T unit :=
  fun st => Ok tt {| prereqStatementsStack := [] :: prereqStatementsStack st |}.

Definition popPrereqStatementsStack : T (list Statement) :=
  fun st =>
    match prereqStatementsStack st with
    | [] => Throw "statement: no buffer" st
    | top :: rest => Ok top {| prereqStatementsStack := rest |}
    end.

(** [state.statement(callback)]: run the callback inside a fresh buffer
    and return what it collected. *)
Definition statement (callback : T unit) : T (list Statement) :=
  pushPrereqStatementsStack ;;;
  callback ;;;
  popPrereqStatementsStack.

(** The two transforms of other files the loop calls. *)
Class Transforms := {
  transformExpression : TsExpression -> T Expression;
  transformIdentifierDefined : TsIdentifier -> T Identifier }.

Record Parameters := {
  parameters : list Identifier;
  statements : list Statement;
  hasDotDotDot : bool }.

Section Lowering.

Context {tr : Transforms}.

Definition transformParamInitializer
  (paramId : Identifier) (initializer : TsExpression) : T Statement :=
  let condition :=
    BinaryExpression (IdentifierExpression paramId) "==" NilLiteral in
  let elseBody := @nil Statement in
  body <- statement
            (right <- transformExpression initializer ;;
             prereq (Assignment paramId right)) ;;
  ret (IfStatement condition body elseBody).

(** The body of the [for] loop over [tsParams], with the three
    accumulators of the function. *)
Fixpoint transformParametersFrom
  (tsParams : list ParameterDeclaration) (acc : Parameters) : T Parameters :=
  match tsParams with
  | [] => ret acc
  | tsParam :: rest =>
      match name tsParam with
      | BindingPattern => throw "Not implemented"
      | IdentifierName tsName =>
          paramId <- transformIdentifierDefined tsName ;;
          let paramStatements :=
            if dotDotDotToken tsParam
            then [VariableDeclaration paramId (Array [VarArgsLiteral])]
            else [] in
          paramStatements <-
            match initializer tsParam with
            | Some init =>
                s <- transformParamInitializer paramId init ;;
                ret (paramStatements ++ [s])%list
            | None => ret paramStatements
            end ;;
          transformParametersFrom rest
            {| parameters :=
                 if dotDotDotToken tsParam then parameters acc
                 else (parameters acc ++ [paramId])%list;
               statements := (statements acc ++ paramStatements)%list;
               hasDotDotDot :=
                 if dotDotDotToken tsParam then true else hasDotDotDot acc |}
      end
  end.

Definition transformParameters (tsParams : list ParameterDeclaration)
  : T Parameters :=
  transformParametersFrom tsParams
    {| parameters := []; statements := []; hasDotDotDot := false |}.

End Lowering.

End TSTransformer.

(* ===================================================================== *)
(** ** A small instance of the collaborators, to run the functions *)
(* ===================================================================== *)

Module Sample.

Import Compiler.

Definition plainType (id : nat) (text : string) : TsType :=
  {| typeId := id;
     typeText := text;
     getSymbol := None;
     typeIsObject := false |}.

Definition numberType : TsType := plainType 1 "number".
Definition numberArrayType : TsType := plainType 2 "number[]".
Definition pairType : TsType := plainType 3 "[number, number]".
Definition anyFunctionType : TsType := plainType 4 "() => [number, number]".
Definition voidType : TsType := plainType 5 "void".

Definition typedSymbol (id : nat) (text : string) (d : Declaration)
  : TsType :=
  {| typeId := id;
     typeText := text;
     getSymbol :=
       Some {| symbolName := text; getValueDeclaration := Some d |};
     typeIsObject := true |}.

Definition ident (text : string) (ty : TsType) : IdentifierNode :=
  {| identText := text; identType := ty; getDefinitions := [] |}.

Definition var (text : string) (ty : TsType) : Expression :=
  Identifier (ident text ty).

(** An identifier bound by [export let]. *)
Definition exportedLet (text : string) (ty : TsType) : Expression :=
  Identifier
    {| identText := text; identType := ty;
       getDefinitions :=
         [ {| firstVariableStatementAncestor :=
                Some {| hasExportKeyword := true;
                        getDeclarationKind := Let |};
              declaredByAncestor := true |} ] |}.

(** Modelled from the spec: [compileExpression] and its siblings are not
    among the source files.  This printer covers the forms the examples
    below use, with the emission conventions of section 6: an identifier
    and a numeric literal are their own spelling, a sequential container
    is the literal-table syntax of the target, a call lists its lowered
    arguments after its lowered callee. *)
Fixpoint emit (e : Expression) : string :=
  match e with
  | Identifier id => identText id
  | NumericLiteral text _ => text
  | ArrayLiteralExpression [] _ => "{}"
  | ArrayLiteralExpression elements _ =>
      "{ " ++ JS.join ", " (map emit elements) ++ " }"
  | CallExpression callee args _ _ =>
      emit callee ++ "(" ++ JS.join ", " (map emit args) ++ ")"
  | ParenthesizedExpression inner _ => "(" ++ emit inner ++ ")"
  | NonNullExpression inner _ => emit inner
  | PropertyAccessExpression base nameNode _ =>
      emit base ++ "." ++ identText nameNode
  | ElementAccessExpression base argument _ =>
      emit base ++ "[" ++ emit argument ++ "]"
  | NewExpression callee args _ =>
      emit callee ++ ".new(" ++ JS.join ", " (map emit args) ++ ")"
  | SuperExpression _ => "super"
  | OtherExpression kindName _ => kindName
  end.

Fixpoint statementText (s : Statement) : string :=
  match s with
  | ExpressionStatement e => emit e
  | ReturnStatement r =>
      match getExpression r with
      | Some e => "return " ++ emit e
      | None => "return nil"
      end
  | IfStatement condition thenStatements elseStatements =>
      "if " ++ emit condition ++ " then "
      ++ String.concat EmptyString
           (map (fun s => statementText s ++ "; ") thenStatements)
      ++ match elseStatements with
         | [] => EmptyString
         | _ =>
             "else "
             ++ String.concat EmptyString
                  (map (fun s => statementText s ++ "; ") elseStatements)
         end
      ++ "end"
  | OtherStatement kindName => kindName
  end.

Definition emitStatement (s : Statement) : M string :=
  ind <- gets indent ;;
  ret (ind ++ statementText s ++ ";" ++ JS.nl).

Fixpoint emitBlock (l : list Statement) : M string :=
  match l with
  | [] => ret EmptyString
  | s :: rest =>
      first <- emitStatement s ;;
      others <- emitBlock rest ;;
      ret (first ++ others)
  end.

Definition endsWith (suffix s : string) : bool :=
  String.eqb
    (JS.substr (String.length s - String.length suffix)
               (String.length suffix) s)
    suffix.

(** The host conversions on the numerals the examples use: a run of
    decimal digits is read exactly, and an integer of magnitude below
    10^21 is printed in decimal.  Anything else (a literal with a
    fraction, an exponent or a radix prefix; a number the host prints
    with a fraction or an exponent) is outside this instance: it is read
    as NaN and printed as a question mark. *)
Definition readNumber (s : string) : JS.number :=
  match s with
  | EmptyString => S754_nan
  | _ =>
      if JS.allDigits s then
        match NilEmpty.uint_of_string s with
        | Some d => JS.ofZ (Z.of_N (N.of_uint d))
        | None => S754_nan
        end
      else S754_nan
  end.

Definition printZ (z : Z) : string :=
  if Z.ltb (Z.abs z) (Z.pow 10 21)
  then NilZero.string_of_int (Z.to_int z)
  else "?".

Definition printNumber (v : JS.number) : string :=
  match v with
  | S754_zero _ => "0"
  | S754_infinity false => "Infinity"
  | S754_infinity true => "-Infinity"
  | S754_nan => "NaN"
  | S754_finite s m e =>
      let sign := if s then (-1)%Z else 1%Z in
      match e with
      | Zneg p =>
          if Z.eqb (Z.modulo (Zpos m) (Z.pow 2 (Zpos p))) 0
          then printZ (sign * Z.div (Zpos m) (Z.pow 2 (Zpos p)))
          else "?"
      | _ => printZ (sign * Zpos m * Z.pow 2 e)
      end
  end.

#[local] Instance collaborators : Collaborators := {|
  compileExpression := fun e => ret (emit e);
  compileCallExpression := fun e _ => ret (emit e);
  compileNumericLiteral := fun e => ret (emit e);
  compileBlock := emitBlock;
  compileStatement := emitStatement;
  getParameterData := fun node _ =>
    ret {| pushedNames := map paramName (getParameters node);
           pushedInitializers := [];
           pushedDefaults := [] |};
  getPropertyAccessExpressionType := fun e =>
    ret match e with
        | PropertyAccessExpression base nameNode _ =>
            if endsWith "[]" (typeText (getType base)) then
              if String.eqb (identText nameNode) "length"
              then PropertyArray
              else if String.eqb (identText nameNode) "push"
              then PropertyArray
              else PropertyNone
            else PropertyNone
        | _ => PropertyNone
        end;
  checkApiAccess := fun _ => ret tt;
  checkNonAny := fun _ => None;
  checkReturnsNonAny := fun _ => None;
  isArrayType := fun ty => endsWith "[]" (typeText ty);
  isNumberType := fun ty => String.eqb (typeText ty) "number";
  inheritsFrom := fun ty name => String.eqb (typeText ty) name;
  isTupleReturnType := fun f =>
    String.prefix "[" (typeText (getReturnType f));
  isTupleReturnTypeCall := fun e =>
    match e with
    | CallExpression _ _ _ returnType =>
        String.prefix "[" (typeText returnType)
    | _ => false
    end;
  isIterableIterator := fun _ _ => None;
  shouldHoist := fun _ _ => false;
  safeLuaIndex := fun base name => base ++ "." ++ name;
  toNumber := readNumber;
  numberToString := printNumber |}.

(** The state a declaration at the top of a file is lowered in: no
    indentation, one identifier frame, one open buffer. *)
Definition state0 : CompilerState :=
  {| indent := EmptyString;
     idStack := [0];
     precedingStatementContexts := [[]];
     hoistStack := [[]];
     usesTSLibrary := false |}.

(** A function declared to return a pair, and the expressions of the
    examples. *)
Definition pairFunction : HasParameters :=
  {| kind := FunctionDeclarationKind;
     isAsync := false;
     isGenerator := false;
     getParameters := [];
     classParent := None;
     getNameNode := Some (ident "f" anyFunctionType);
     getReturnType := pairType |}.

Definition a : Expression := var "a" numberType.
Definition b : Expression := var "b" numberType.
Definition i : Expression := var "i" numberType.
Definition arr : Expression := var "arr" numberArrayType.
Definition pairLiteral : Expression := ArrayLiteralExpression [a; b] pairType.
Definition pairCall : Expression :=
  CallExpression (var "g" anyFunctionType) [] pairType pairType.
Definition pairVariable : Expression := var "t" pairType.

(** A constant enumeration, a class, a function value and an array with
    its macro members. *)
Definition colorEnum : TsType :=
  typedSymbol 10 "Color"
    (EnumDeclarationDecl true
       [("Red", EnumNumber (JS.ofZ 3)); ("Name", EnumString "red")]).
Definition pointClass : TsType := typedSymbol 11 "Point" ClassDeclarationDecl.
Definition callback : TsType :=
  typedSymbol 12 "callback" FunctionDeclarationDecl.

Definition member (base : Expression) (name : string) : Expression :=
  PropertyAccessExpression base (ident name numberType) numberType.

(** A constructor [constructor(a) { this.x = a; return; }]. *)
Definition constructorNode : HasParameters :=
  {| kind := ConstructorDeclarationKind;
     isAsync := false;
     isGenerator := false;
     getParameters :=
       [ {| firstIdentifierChild := Some (ident "a" numberType);
            paramName := "a";
            paramType := numberType |} ];
     classParent := Some pointClass;
     getNameNode := None;
     getReturnType := pointClass |}.



(** A method [m(this: Point, x)] of the class [Point], a method
    [m(x)], and a method [m(this: void, x)]. *)
Definition parameter (text : string) (ty : TsType) : ParameterDeclaration :=
  {| firstIdentifierChild := Some (ident text ty);
     paramName := text;
     paramType := ty |}.

Definition method (params : list ParameterDeclaration) : HasParameters :=
  {| kind := MethodDeclarationKind;
     isAsync := false;
     isGenerator := false;
     getParameters := params;
     classParent := Some pointClass;
     getNameNode := Some (ident "m" anyFunctionType);
     getReturnType := numberType |}.

Definition methodPlain : HasParameters :=
  method [parameter "x" numberType].

(** A generator function [function* count() { ... }] with a body of one
    statement. *)
Definition generatorNode : HasParameters :=
  {| kind := FunctionDeclarationKind;
     isAsync := false;
     isGenerator := true;
     getParameters := [];
     classParent := None;
     getNameNode := Some (ident "count" anyFunctionType);
     getReturnType := plainType 20 "IterableIterator<number>" |}.

Definition generatorBody : Body :=
  BlockBody [OtherStatement "coroutine.yield({ value = 1, done = false })"].

End Sample.

(* ===================================================================== *)
(** ** A small instance of the transforms, to run the parameter lowering *)
(* ===================================================================== *)

Module SampleTransforms.

Import TSTransformer.

(** Modelled from the spec: [transformExpression] and
    [transformIdentifierDefined] are not among the source files.  This
    instance lowers the expressions of the scenario of section 8,
    [(x: number, y: number = x + 1)]: an identifier to the identifier of
    the same name, a numeric literal to a number, a binary expression
    operand by operand; it emits no statement of its own. *)
Fixpoint lower (e : TsExpression) : Expression :=
  match e with
  | TsIdentifierExpression id =>
      IdentifierExpression {| luaName := tsText id |}
  | TsNumericLiteral text => NumberLiteral text
  | TsBinaryExpression lhs operator rhs =>
      BinaryExpression (lower lhs) operator (lower rhs)
  | TsOtherExpression _ => NilLiteral
  end.

#[local] Instance transforms : Transforms := {|
  transformExpression := fun e => ret (lower e);
  transformIdentifierDefined := fun id => ret {| luaName := tsText id |} |}.

Definition x : TsIdentifier := {| tsText := "x" |}.
Definition y : TsIdentifier := {| tsText := "y" |}.

(** [(x: number, y: number = x + 1)] *)
Definition paramX : ParameterDeclaration :=
  {| name := IdentifierName x; dotDotDotToken := false; initializer := None |}.
Definition paramY : ParameterDeclaration :=
  {| name := IdentifierName y;
     dotDotDotToken := false;
     initializer :=
       Some (TsBinaryExpression (TsIdentifierExpression x) "+"
                                (TsNumericLiteral "1")) |}.

Definition state0 : TransformState := {| prereqStatementsStack := [[]] |}.

End SampleTransforms.

(* ===================================================================== *)
(** ** States and texts the properties below speak about *)
(* ===================================================================== *)

Module Shapes.

Import Compiler.

(** The state after [expStr] was extracted into the local [newId]. *)
Definition extracted (st : CompilerState) (newId expStr : string)
  (top : nat) (rest : list nat)
  (buffer : list string) (buffers : list (list string)) : CompilerState :=
  {| indent := indent st;
     idStack := S top :: rest;
     precedingStatementContexts :=
       (buffer ++ [(indent st ++ "local " ++ newId ++ " = " ++ expStr ++
                    ";" ++ JS.nl)%string])%list :: buffers;
     hoistStack := hoistStack st;
     usesTSLibrary := usesTSLibrary st |}.

(** The diagnostic raised at [node] with the tag [tag]. *)
Definition diagnostic (msg : string) (node : Node) (tag : CompilerErrorType)
  : Exception :=
  CompilerErrorExn {| message := msg; errorNode := node; errorType := tag |}.

(** [IndexPlusOne argExp st idx st1]: lowering the index [argExp] from
    the state [st] with the offset of one gives the text [idx] and the
    state [st1].  A numeric literal spelled without the letter [e] is
    read as a number, incremented and printed; any other index is
    lowered as an expression and followed by [+ 1]. *)
Definition IndexPlusOne {collab : Collaborators}
  (argExp : Expression) (st : CompilerState)
  (idx : string) (st1 : CompilerState) : Prop :=
  (isFoldableLiteral argExp = true /\
   exists literal,
     compileNumericLiteral argExp st = Ok literal st1 /\
     idx = numberToString (JS.increment (toNumber literal))) \/
  (isFoldableLiteral argExp = false /\
   exists compiled,
     compileExpression argExp st = Ok compiled st1 /\
     idx = compiled ++ " + 1").

(** The text of an indexed base: an array literal and a construction of
    an array are parenthesized. *)
Definition indexedBase {collab : Collaborators}
  (expNode : Expression) (text : string) : string :=
  if isArrayLiteralExpression expNode ||
     match expNode with
     | NewExpression callee _ _ =>
         typeIsObject (getType callee) &&
         inheritsFrom (getType callee) "ArrayConstructor"
     | _ => false
     end
  then "(" ++ text ++ ")"
  else text.

(** [OrdinaryAccess exp nameNode ty st expStr st3]: the first steps of
    lowering the property access go through and lead from [st] to
    [st3]: the base lowers to [expStr], the access is not a macro, the
    checks on the name and on the base pass, and the base is not
    [super]. *)
Definition OrdinaryAccess {collab : Collaborators}
  (exp : Expression) (nameNode : IdentifierNode) (ty : TsType)
  (st : CompilerState) (expStr : string) (st3 : CompilerState) : Prop :=
  exists st1 st2,
    compileExpression exp st = Ok expStr st1 /\
    getPropertyAccessExpressionType
      (PropertyAccessExpression exp nameNode ty) st1 = Ok PropertyNone st2 /\
    checkApiAccess nameNode st2 = Ok tt st3 /\
    checkNonAny (ExpressionNode exp) = None /\
    checkNonAny (IdentifierNameNode nameNode) = None /\
    isSuperExpression exp = false.

(** The value declaration of the type symbol of an expression. *)
Definition valueDeclarationOf (exp : Expression) : option Declaration :=
  match getSymbol (getType exp) with
  | Some symbol => getValueDeclaration symbol
  | None => None
  end.




(** One level of indentation more, one level less. *)
Definition indented (s : string) : string := s ++ JS.tab.
Definition unindented (s : string) : string :=
  JS.substr 1 (String.length s) s.

(** The pieces of the text [compileFunction] puts around a body. *)
Definition hoisted {collab : Collaborators} (node : HasParameters) : bool :=
  match kind node, getNameNode node with
  | FunctionDeclarationKind, Some nameNode => shouldHoist node nameNode
  | _, _ => false
  end.

Definition declarationPrefix {collab : Collaborators} (node : HasParameters)
  : string :=
  match kind node with
  | FunctionDeclarationKind => if hoisted node then EmptyString else "local "
  | _ => EmptyString
  end.

Definition functionHead {collab : Collaborators}
  (node : HasParameters) (name : string) (st : CompilerState) : string :=
  (if String.eqb name EmptyString then EmptyString
   else indent st ++ declarationPrefix node ++ name ++ " = ") ++
  (if wrapsAsync node then "TS.async(" else EmptyString).

Definition functionTail (node : HasParameters) (name : string) : string :=
  "end" ++
  (if wrapsAsync node then ")" else EmptyString) ++
  (if String.eqb name EmptyString then EmptyString else ";" ++ JS.nl).

(** The parameter list of the emitted closure. *)
Definition parameterNames (node : HasParameters) (data : ParameterData)
  : list string :=
  if isMethodLike node then giveInitialSelfParameter node (pushedNames data)
  else pushedNames data.

(** The state in which the head of the function has been emitted: the
    name is registered for hoisting when it must be, and the use of the
    runtime library is recorded for an async function. *)
Definition headerState {collab : Collaborators}
  (node : HasParameters) (name : string) (st : CompilerState)
  : CompilerState :=
  let st :=
    if hoisted node
    then withHoistStack
           (fun h => match h with
                     | [] => [[name]]
                     | top :: rest => (top ++ [name])%list :: rest
                     end) st
    else st in
  if wrapsAsync node then setUsesTSLibrary st else st.

(** Words for the definition sites of an identifier.  At an
    [ExportLetSite] the nearest variable statement above the site is an
    exported [let]; the site itself may be a declaration of that
    statement or lie further down in it. *)
Definition ExportLetSite (def : DefinitionInfo) : Prop :=
  exists stmt,
    firstVariableStatementAncestor def = Some stmt /\
    hasExportKeyword stmt = true /\
    getDeclarationKind stmt = Let.

Definition HasExportLetSite (id : IdentifierNode) : Prop :=
  exists def, In def (getDefinitions id) /\ ExportLetSite def.

(** The identifier is bound by an [export let]: one of its definition
    sites is a declaration of an exported [let] statement. *)
Definition BoundByExportLet (id : IdentifierNode) : Prop :=
  exists def,
    In def (getDefinitions id) /\
    ExportLetSite def /\
    declaredByAncestor def = true.


(** The index of the access [expNode[argExp]] is lowered with the
    offset of one: its type is numeric, and the base has an array type
    or is a call declared to return a tuple or an array. *)
Definition offsetApplies {collab : Collaborators}
  (expNode argExp : Expression) : bool :=
  isNumberType (getType argExp) &&
  (isArrayType (getType expNode) ||
   isCallExpression expNode &&
   (isTupleReturnTypeCall expNode || isArrayType (callReturnType expNode))).

End Shapes.

Module TransformShapes.

Import TSTransformer.

Definition isIdentifierName (p : ParameterDeclaration) : bool :=
  match name p with
  | IdentifierName _ => true
  | BindingPattern => false
  end.

(** [if paramId == nil then <pre>; paramId = value end] *)
Definition defaultGuard
  (paramId : Identifier) (pre : list Statement) (value : Expression)
  : Statement :=
  IfStatement (BinaryExpression (IdentifierExpression paramId) "==" NilLiteral)
              (pre ++ [Assignment paramId value]) [].

(** [local paramId = { ... }] *)
Definition restBinding (paramId : Identifier) : Statement :=
  VariableDeclaration paramId (Array [VarArgsLiteral]).

(** The state with a fresh, empty buffer on top. *)
Definition inFreshBuffer (st : TransformState) : TransformState :=
  {| prereqStatementsStack := [] :: prereqStatementsStack st |}.

(** [DefaultGuardEmitted before param after tsName init st]: lowering
    the parameters [before ++ param :: after] from the state [st]
    returns, and the parameter [param], named [tsName] with the default
    value [init], contributes its guard:
    - [earlier] is the result of lowering [before] alone, [paramId] the
      lowered name of [param], [value] the lowered [init] and [pre] the
      statements the lowering of [init] left in its fresh buffer;
    - the statements returned are those of [earlier], the binding of a
      rest parameter if [param] is one, the guard
      [if paramId == nil then pre; paramId = value end], and the
      statements of the parameters after;
    - the parameters returned start with those of [earlier]. *)
Definition DefaultGuardEmitted {tr : Transforms}
  (before : list ParameterDeclaration) (param : ParameterDeclaration)
  (after : list ParameterDeclaration)
  (tsName : TsIdentifier) (init : TsExpression) (st : TransformState)
  : Prop :=
  exists earlier stB paramId st1 value st2 pre final st' laterParameters
         laterStatements,
    transformParameters before st = Ok earlier stB /\
    transformIdentifierDefined tsName stB = Ok paramId st1 /\
    transformExpression init (inFreshBuffer st1) = Ok value st2 /\
    hd_error (prereqStatementsStack st2) = Some pre /\
    transformParameters (before ++ param :: after) st = Ok final st' /\
    statements final
    = (statements earlier ++
       (if dotDotDotToken param then [restBinding paramId] else []) ++
       [defaultGuard paramId pre value] ++
       laterStatements)%list /\
    parameters final
    = (parameters earlier ++
       (if dotDotDotToken param then [] else [paramId]) ++
       laterParameters)%list.

End TransformShapes.

(* ===================================================================== *)
(** ** The declaration entry points of [function.ts] *)
(* ===================================================================== *)

Module Declarations.

Import Compiler.

(** Three more functions of other files that the entry points call:
    the check of reserved names, the registration of an exported name
    and the declaration of fresh locals in the buffer of preceding
    statements ([pushPrecedingStatementToNewIds node source count]
    returns the names it declared). *)
Class Registry := {
  checkReserved : string -> Node -> bool -> option CompilerError;
  pushExport : string -> HasParameters -> M unit;
  pushPrecedingStatementToNewIds : Node -> string -> nat -> M (list string) }.

Section Entry.

Context {collab : Collaborators} {registry : Registry}.

(** [node.getName()] of a function declaration. *)
Definition getName (node : HasParameters) : option string :=
  option_map identText (getNameNode node).

(** [compileFunctionDeclaration], lines 215-231. *)
Definition compileFunctionDeclaration
  (node : HasParameters) (body : option Body) : M string :=
  name <-
    match getName node with
    | Some name =>
        liftCheck (checkReserved name (FunctionLikeNode node) true) ;;;
        ret name
    | None => getNewId
    end ;;
  match body with
  | Some b =>
      pushExport name node ;;;
      compileFunction node name b
  | None => ret EmptyString
  end.

(** [compileMethodDeclaration], lines 233-237.  [name] is
    [node.getName()]; the body is [None] when [getBodyOrThrow] throws. *)
Definition compileMethodDeclaration
  (node : HasParameters) (name : string) (body : option Body) : M string :=
  liftCheck (checkReserved name (FunctionLikeNode node) false) ;;;
  match body with
  | Some b => compileFunction node name b
  | None => throw (HostError "getBodyOrThrow")
  end.


End Entry.

End Declarations.

(* ===================================================================== *)
(** ** More vocabulary for the properties *)
(* ===================================================================== *)

Module MoreShapes.

Import Compiler Shapes.

(** An indentation is a run of tabs. *)
Fixpoint allTabs (s : string) : bool :=
  match s with
  | EmptyString => true
  | String c rest => Ascii.eqb c (ascii_of_nat 9) && allTabs rest
  end.

(** The state with the innermost buffer of preceding statements closed. *)
Definition contextClosed (st : CompilerState) : CompilerState :=
  withContexts (@tl (list string)) st.

(** The state with a fresh buffer of preceding statements opened. *)
Definition contextOpened (st : CompilerState) : CompilerState :=
  withContexts (cons []) st.

(** An ancestor that is no function-like node. *)
Definition isOtherAncestor (a : Ancestor) : bool :=
  match a with
  | OtherAncestor _ => true
  | FunctionLikeAncestor _ => false
  end.

(** The lines of [extraInitializers], which are emitted as they are. *)
Definition extraLines (extraInitializers : option (list string)) : string :=
  match extraInitializers with
  | Some extra => rawLines extra
  | None => EmptyString
  end.

End MoreShapes.

Module MoreSample.

Import Compiler Declarations Sample.

(** Modelled from the spec: [checkReserved], [pushExport] and
    [pushPrecedingStatementToNewIds] are not among the source files.
    This instance lets every name through, keeps no export table, and
    declares one fresh local (section 4.1, [freshName]) in the innermost
    buffer of preceding statements. *)
#[local] Instance registry : Registry := {|
  checkReserved := fun _ _ _ => None;
  pushExport := fun _ _ => ret tt;
  pushPrecedingStatementToNewIds := fun node source count =>
    id <- getNewId ;;
    ind <- gets indent ;;
    pushPrecedingStatements node (ind ++ "local " ++ id ++ ";" ++ JS.nl) ;;;
    ret [id] |}.

(** A plain function [function add(a, b) { ... }] and its async and
    anonymous variants. *)
Definition functionNode (k : FunctionKind) (async : bool)
  (nameNode : option IdentifierNode) : HasParameters :=
  {| kind := k;
     isAsync := async;
     isGenerator := false;
     getParameters := [parameter "a" numberType; parameter "b" numberType];
     classParent := None;
     getNameNode := nameNode;
     getReturnType := numberType |}.

Definition addNode : HasParameters :=
  functionNode FunctionDeclarationKind false
    (Some (ident "add" anyFunctionType)).
Definition arrowNode : HasParameters :=
  functionNode ArrowFunctionKind false None.
Definition anonymousDeclaration : HasParameters :=
  functionNode FunctionDeclarationKind false None.


Definition sumBody : Body := BlockBody [OtherStatement "return a + b"].

(** The arrow function [() => [a, b]] declared to return a pair. *)
Definition pairArrow : HasParameters :=
  {| kind := ArrowFunctionKind;
     isAsync := false;
     isGenerator := false;
     getParameters := [];
     classParent := None;
     getNameNode := None;
     getReturnType := pairType |}.

(** The collaborators of [Sample], with an iterator check that rejects
    every return type. *)
#[local] Instance strictCollaborators : Collaborators := {|
  compileExpression := compileExpression (Collaborators := collaborators);
  compileCallExpression :=
    compileCallExpression (Collaborators := collaborators);
  compileNumericLiteral :=
    compileNumericLiteral (Collaborators := collaborators);
  compileBlock := compileBlock (Collaborators := collaborators);
  compileStatement := compileStatement (Collaborators := collaborators);
  getParameterData := getParameterData (Collaborators := collaborators);
  getPropertyAccessExpressionType :=
    getPropertyAccessExpressionType (Collaborators := collaborators);
  checkApiAccess := checkApiAccess (Collaborators := collaborators);
  checkNonAny := checkNonAny (Collaborators := collaborators);
  checkReturnsNonAny := checkReturnsNonAny (Collaborators := collaborators);
  isArrayType := isArrayType (Collaborators := collaborators);
  isNumberType := isNumberType (Collaborators := collaborators);
  inheritsFrom := inheritsFrom (Collaborators := collaborators);
  isTupleReturnType := isTupleReturnType (Collaborators := collaborators);
  isTupleReturnTypeCall :=
    isTupleReturnTypeCall (Collaborators := collaborators);
  isIterableIterator := fun _ node =>
    Some {| message := "IterableIterator is nullable";
            errorNode := FunctionLikeNode node;
            errorType := OtherErrorType "BadIterableIterator" |};
  shouldHoist := shouldHoist (Collaborators := collaborators);
  safeLuaIndex := safeLuaIndex (Collaborators := collaborators);
  toNumber := toNumber (Collaborators := collaborators);
  numberToString := numberToString (Collaborators := collaborators) |}.

(** [Foo.Bar.i] and its base [Foo.Bar]. *)
Definition fooBar : Expression := member (var "Foo" numberType) "Bar".
Definition fooBarI : Expression := member fooBar "i".

(** A generator whose return type the iterator check rejects. *)
Definition iteratorError : CompilerError :=
  {| message := "IterableIterator is nullable";
     errorNode := FunctionLikeNode generatorNode;
     errorType := OtherErrorType "BadIterableIterator" |}.

(** An enumeration that is not constant. *)
Definition plainEnum : TsType :=
  typedSymbol 13 "Direction"
    (EnumDeclarationDecl false [("Up", EnumNumber (JS.ofZ 0))]).

(** A call whose declared return type is an array. *)
Definition arrayCall : Expression :=
  CallExpression (var "list" anyFunctionType) [] numberType numberArrayType.

Definition stringType : TsType := plainType 6 "string".
Definition recordType : TsType := plainType 7 "Record<string, number>".

(** A constructor body [super(a); this.x = a;]. *)
Definition superCall : Statement :=
  ExpressionStatement
    (CallExpression (SuperExpression pointClass) [a] voidType voidType).

(** The parameter [p] of [export let f = (p) => p + x], where it is
    used in the body of the arrow function: its one definition site is
    the parameter, and the nearest variable statement above that site is
    the exported [let] that declares [f]. *)
Definition parameterUnderExportLet : IdentifierNode :=
  {| identText := "p";
     identType := numberType;
     getDefinitions :=
       [ {| firstVariableStatementAncestor :=
              Some {| hasExportKeyword := true;
                      getDeclarationKind := Let |};
            declaredByAncestor := false |} ] |}.


(** Modelled from the spec: [compileStatement] and [compileBlock] are
    not among the source files.  Section 4.2 has a return statement
    lowered by [compileReturnStatement]; this instance does so, and
    leaves every other statement to the printer of [Sample]. *)
Definition lowerStatement (s : Statement) : M string :=
  match s with
  | ReturnStatement r => compileReturnStatement (collab := collaborators) r
  | _ => emitStatement s
  end.

Fixpoint lowerBlock (l : list Statement) : M string :=
  match l with
  | [] => ret EmptyString
  | s :: rest =>
      first <- lowerStatement s ;;
      others <- lowerBlock rest ;;
      ret (first ++ others)
  end.

#[local] Instance returningCollaborators : Collaborators := {|
  compileExpression := compileExpression (Collaborators := collaborators);
  compileCallExpression :=
    compileCallExpression (Collaborators := collaborators);
  compileNumericLiteral :=
    compileNumericLiteral (Collaborators := collaborators);
  compileBlock := lowerBlock;
  compileStatement := lowerStatement;
  getParameterData := getParameterData (Collaborators := collaborators);
  getPropertyAccessExpressionType :=
    getPropertyAccessExpressionType (Collaborators := collaborators);
  checkApiAccess := checkApiAccess (Collaborators := collaborators);
  checkNonAny := checkNonAny (Collaborators := collaborators);
  checkReturnsNonAny := checkReturnsNonAny (Collaborators := collaborators);
  isArrayType := isArrayType (Collaborators := collaborators);
  isNumberType := isNumberType (Collaborators := collaborators);
  inheritsFrom := inheritsFrom (Collaborators := collaborators);
  isTupleReturnType := isTupleReturnType (Collaborators := collaborators);
  isTupleReturnTypeCall :=
    isTupleReturnTypeCall (Collaborators := collaborators);
  isIterableIterator :=
    isIterableIterator (Collaborators := collaborators);
  shouldHoist := shouldHoist (Collaborators := collaborators);
  safeLuaIndex := safeLuaIndex (Collaborators := collaborators);
  toNumber := toNumber (Collaborators := collaborators);
  numberToString := numberToString (Collaborators := collaborators) |}.

(** The body of [function* count() { yield 1; return 2; }]; the yield
    is given by its lowered text. *)
Definition returnTwo : Statement :=
  ReturnStatement
    {| getExpression := Some (NumericLiteral "2" numberType);
       getAncestors := [FunctionLikeAncestor generatorNode] |}.

Definition returningGeneratorBody : Body :=
  BlockBody
    [OtherStatement "coroutine.yield({ value = 1, done = false })";
     returnTwo].

End MoreSample.

Module MoreTransformShapes.

Import TSTransformer.

(** How many parameters are rest parameters, have a default value. *)
Definition countRest (l : list ParameterDeclaration) : nat :=
  List.length (filter dotDotDotToken l).

Definition hasInitializer (p : ParameterDeclaration) : bool :=
  match initializer p with
  | Some _ => true
  | None => false
  end.

Definition countDefaults (l : list ParameterDeclaration) : nat :=
  List.length (filter hasInitializer l).

(** A transform of expressions that only appends to the innermost
    buffer: started with the buffers [top :: below] it returns with
    [(top ++ new) :: below]. *)
Definition AppendsToBuffer {tr : Transforms} : Prop :=
  forall e top below,
    exists value new,
      transformExpression e {| prereqStatementsStack := top :: below |}
      = Ok value {| prereqStatementsStack := (top ++ new)%list :: below |}.

(** A transform of identifiers that returns and leaves the buffers as
    they are. *)
Definition IdentifiersLeaveBuffers {tr : Transforms} : Prop :=
  forall id st,
    exists paramId, transformIdentifierDefined id st = Ok paramId st.

(** [Lowered st params ids stmts]: what lowering the parameters [params]
    gives when every transform leaves the state [st] as it found it.
    Each parameter is named by an identifier, lowered to [paramId]; a
    rest parameter contributes its binding and no parameter slot, any
    other parameter its slot; a default value contributes its guard,
    whose body starts with the statements [new] that the lowering of
    the default value emitted in the fresh buffer. *)
Inductive Lowered {tr : Transforms} (st : TransformState)
  : list ParameterDeclaration -> list Identifier -> list Statement -> Prop :=
| LoweredNil : Lowered st [] [] []
| LoweredCons (p : ParameterDeclaration) (ps : list ParameterDeclaration)
    (tsName : TsIdentifier) (paramId : Identifier)
    (guard : list Statement) (ids : list Identifier) (stmts : list Statement) :
    name p = IdentifierName tsName ->
    transformIdentifierDefined tsName st = Ok paramId st ->
    match initializer p with
    | None => guard = []
    | Some init =>
        exists value new,
          transformExpression init (TransformShapes.inFreshBuffer st)
          = Ok value
              {| prereqStatementsStack := new :: prereqStatementsStack st |} /\
          guard = [TransformShapes.defaultGuard paramId new value]
    end ->
    Lowered st ps ids stmts ->
    Lowered st (p :: ps)
      ((if dotDotDotToken p then [] else [paramId]) ++ ids)%list
      ((if dotDotDotToken p then [TransformShapes.restBinding paramId]
        else []) ++ guard ++ stmts)%list.

End MoreTransformShapes.

Module MoreSampleTransforms.

Import TSTransformer SampleTransforms.

(** Modelled from the spec: a transform of expressions that, unlike the
    one of [SampleTransforms], extracts: anything that is no
    identifier, literal or binary expression is bound to the local
    [_1] by a statement in the innermost buffer (section 4.2) and
    replaced by that local. *)
#[local] Instance extracting : Transforms := {|
  transformExpression := fun e =>
    match e with
    | TsOtherExpression kindName =>
        prereq (VariableDeclaration {| luaName := "_1" |}
                  (NumberLiteral kindName)) ;;;
        ret (IdentifierExpression {| luaName := "_1" |})
    | _ => ret (lower e)
    end;
  transformIdentifierDefined := fun id => ret {| luaName := tsText id |} |}.

(** [(x, y = f(), ...rest)] and the destructuring [({ a, b })]. *)
Definition paramCall : ParameterDeclaration :=
  {| name := IdentifierName y;
     dotDotDotToken := false;
     initializer := Some (TsOtherExpression "f()") |}.
Definition paramRest : ParameterDeclaration :=
  {| name := IdentifierName {| tsText := "rest" |};
     dotDotDotToken := true;
     initializer := None |}.
Definition paramPattern : ParameterDeclaration :=
  {| name := BindingPattern; dotDotDotToken := false; initializer := None |}.

End MoreSampleTransforms.

(* ===================================================================== *)
(** ** Facts about the host primitives *)
(* ===================================================================== *)

Module JSFacts.

Lemma substring_all (s t : string) :
  substring 0 (String.length s) (s ++ t) = s.
Proof.
  induction s as [|c s IH]; simpl.
  - destruct t; reflexivity.
  - now rewrite IH.
Qed.

Lemma length_append (s t : string) :
  String.length (s ++ t) = String.length s + String.length t.
Proof.
  induction s as [|c s IH]; simpl; [reflexivity | now rewrite IH].
Qed.

Lemma append_assoc (s t u : string) : (s ++ t) ++ u = s ++ (t ++ u).
Proof.
  induction s as [|c s IH]; simpl; [reflexivity | now rewrite IH].
Qed.

(** Dropping the two characters at each end of a table literal leaves
    the list of its elements. *)
Lemma substr_braces (inner : string) :
  let s := "{ " ++ inner ++ " }" in
  JS.substr 2 (String.length s - 4) s = inner.
Proof.
  cbv zeta. unfold JS.substr.
  change ("{ " ++ inner ++ " }") with (String "{" (String " " (inner ++ " }"))).
  cbn [String.length substring].
  rewrite length_append. cbn [String.length].
  replace (S (S (String.length inner + 2)) - 4) with (String.length inner) by lia.
  apply substring_all.
Qed.

Lemma allDigits_string_of_uint (d : Decimal.uint) :
  JS.allDigits (NilEmpty.string_of_uint d) = true.
Proof.
  induction d; simpl; auto.
Qed.

(** The decimal spelling of a natural number is a non-empty run of
    digits. *)
Lemma natToString_digits (n : nat) :
  exists c r, JS.natToString n = String c r /\
              JS.isDigit c = true /\ JS.allDigits r = true.
Proof.
  unfold JS.natToString, NilZero.string_of_uint.
  destruct (Nat.to_uint n) as [|d|d|d|d|d|d|d|d|d|d]; simpl;
    eexists; eexists; (split; [reflexivity|]);
    (split; [reflexivity | try reflexivity; apply allDigits_string_of_uint]).
Qed.

(** What the pattern [/^_\d+$/] accepts. *)
Lemma matchesTempId_iff (s : string) :
  JS.matchesTempId s = true <->
  exists digits, digits <> EmptyString /\ JS.allDigits digits = true /\
                 s = "_" ++ digits.
Proof.
  split.
  - destruct s as [|a [|c r]]; simpl; try discriminate.
    + destruct (Ascii.eqb_spec a "_"); [subst|]; simpl.
      * discriminate.
      * destruct a as [[] [] [] [] [] [] [] []]; discriminate.
    + intros Hm.
      assert (a = "_"%char /\ JS.isDigit c && JS.allDigits r = true) as [-> Hd].
      { destruct a as [[] [] [] [] [] [] [] []]; try discriminate. now split. }
      exists (String c r). repeat split; [discriminate | exact Hd].
  - intros (digits & Hne & Hd & ->).
    destruct digits as [|c r]; [contradiction|]. exact Hd.
Qed.

Lemma matchesTempId_fresh (n : nat) :
  JS.matchesTempId ("_" ++ JS.natToString n) = true.
Proof.
  destruct (natToString_digits n) as (c & r & -> & Hc & Hr).
  simpl. now rewrite Hc, Hr.
Qed.

End JSFacts.

(* ===================================================================== *)
(** ** Properties of [indexed.ts] and [function.ts] *)
(* ===================================================================== *)

Module CompilerFacts.

Import Compiler Shapes.

(** Unfolds the plumbing of the state-and-exception actions. *)
Ltac run :=
  unfold bind, ret, gets, modify, liftCheck, throwCompilerError, throw.

Ltac run_in H :=
  unfold bind, ret, gets, modify, liftCheck, throwCompilerError, throw in H.

(** **** Readable names *)

Lemma getReadableExpressionName_temp
  (exp : Expression) (expStr : string) (st : CompilerState) :
  JS.matchesTempId expStr = true ->
  getReadableExpressionName exp expStr st = Ok expStr st.
Proof.
  intros Hm. unfold getReadableExpressionName. now rewrite Hm.
Qed.

(** The test of [isIdentifierDefinedInExportLet], in words: one of the
    definition sites has an exported [let] as the nearest variable
    statement above it. *)
Lemma isIdentifierDefinedInExportLet_iff (id : IdentifierNode) :
  isIdentifierDefinedInExportLet id = true <-> HasExportLetSite id.
Proof.
  unfold isIdentifierDefinedInExportLet, HasExportLetSite, ExportLetSite.
  rewrite existsb_exists. split.
  - intros (def & Hin & Htest). exists def. split; [exact Hin|].
    destruct (firstVariableStatementAncestor def) as [stmt|];
      [| discriminate].
    exists stmt. apply andb_prop in Htest as [Hexport Hkind].
    destruct (getDeclarationKind stmt); try discriminate. now repeat split.
  - intros (def & Hin & stmt & Hsome & Hexport & Hkind).
    exists def. split; [exact Hin|]. now rewrite Hsome, Hexport, Hkind.
Qed.

Lemma isIdentifierDefinedInExportLet_false (id : IdentifierNode) :
  isIdentifierDefinedInExportLet id = false <-> ~ HasExportLetSite id.
Proof.
  rewrite <- isIdentifierDefinedInExportLet_iff.
  now destruct (isIdentifierDefinedInExportLet id).
Qed.

(** C8, as the code has it.  [getReadableExpressionName] returns its
    input text unchanged, in an unchanged state, when the text already
    has the shape of a synthetic temporary or when the expression is an
    identifier none of whose definition sites has an exported [let] as
    the nearest variable statement above it.  Any other expression is
    extracted: a fresh temporary is declared at the end of the innermost
    buffer of preceding statements and its name is returned; handing
    that name back to the function, with whatever expression, extracts
    nothing more.  Among the identifiers that are extracted are those
    bound by an [export let], and those defined further down in such a
    statement. *)
Theorem getReadableExpressionName_pure_inlineable
  (exp : Expression) (expStr : string) (st : CompilerState) :
  (JS.matchesTempId expStr = true ->
   getReadableExpressionName exp expStr st = Ok expStr st) /\
  (forall id, exp = Identifier id ->
              ~ HasExportLetSite id ->
   getReadableExpressionName exp expStr st = Ok expStr st) /\
  (JS.matchesTempId expStr = false ->
   (forall id, exp = Identifier id -> HasExportLetSite id) ->
   forall top rest buffer buffers,
     idStack st = top :: rest ->
     precedingStatementContexts st = buffer :: buffers ->
     let newId := "_" ++ JS.natToString (list_sum (top :: rest)) in
     let st' := extracted st newId expStr top rest buffer buffers in
     getReadableExpressionName exp expStr st
     = pushPrecedingStatementToNextId (ExpressionNode exp) expStr st /\
     getReadableExpressionName exp expStr st = Ok newId st' /\
     forall exp', getReadableExpressionName exp' newId st' = Ok newId st') /\
  (forall id, BoundByExportLet id -> HasExportLetSite id).
Proof.
  split; [apply getReadableExpressionName_temp|]. split; [| split].
  - intros id -> Hlet. apply isIdentifierDefinedInExportLet_false in Hlet.
    unfold getReadableExpressionName.
    rewrite Hlet. simpl. now rewrite orb_true_r.
  - intros Hm Hother top rest buffer buffers Hids Hctx newId st'.
    assert (Hident : match exp with
                     | Identifier id =>
                         negb (isIdentifierDefinedInExportLet id)
                     | _ => false
                     end = false).
    { destruct exp; try reflexivity.
      now rewrite (proj2 (isIdentifierDefinedInExportLet_iff id)
                     (Hother id eq_refl)). }
    split; [| split].
    + unfold getReadableExpressionName. now rewrite Hm, Hident.
    + unfold getReadableExpressionName. rewrite Hm, Hident. simpl.
      unfold pushPrecedingStatementToNextId, getNewId, pushPrecedingStatements.
      run. rewrite Hids. simpl. rewrite Hctx. reflexivity.
    + intros exp'. apply getReadableExpressionName_temp.
      apply JSFacts.matchesTempId_fresh.
  - intros id (def & Hin & Hsite & _). now exists def.
Qed.

Lemma sample_exported_let_site
  (text : string) (ty : TsType) (id : IdentifierNode) :
  Sample.exportedLet text ty = Identifier id -> HasExportLetSite id.
Proof.
  intros Hid. injection Hid as <-.
  eexists. split; [left; reflexivity|].
  eexists. split; [reflexivity|]. split; reflexivity.
Defined.

Lemma getReadableExpressionName_pure_inlineable_witness :
  getReadableExpressionName
    (Sample.exportedLet "x" Sample.numberType) "_3" Sample.state0
  = Ok "_3" Sample.state0 /\
  getReadableExpressionName
    (Sample.var "x" Sample.numberType) "x" Sample.state0
  = Ok "x" Sample.state0 /\
  getReadableExpressionName
    (Sample.exportedLet "x" Sample.numberType) "x" Sample.state0
  = Ok "_0" (extracted Sample.state0 "_0" "x" 0 [] [] []).
Proof.
  split; [| split].
  - apply (proj1 (getReadableExpressionName_pure_inlineable
                    (Sample.exportedLet "x" Sample.numberType) "_3"
                    Sample.state0)).
    reflexivity.
  - apply (proj1 (proj2 (getReadableExpressionName_pure_inlineable
                           (Sample.var "x" Sample.numberType) "x"
                           Sample.state0))
             (Sample.ident "x" Sample.numberType)); [reflexivity|].
    intros (def & [] & _).
  - exact (proj1 (proj2 (proj1 (proj2 (proj2
              (getReadableExpressionName_pure_inlineable
                 (Sample.exportedLet "x" Sample.numberType)
                 "x" Sample.state0)))
              eq_refl (sample_exported_let_site "x" Sample.numberType)
              0 [] [] [] eq_refl eq_refl))).
Defined.

(** C8, as the specification words it, fails on an identifier that is
    defined inside an [export let] statement without being bound by it.
    The parameter [p] of [export let f = (p) => p + x] is bound by no
    [export let], and its text is no synthetic temporary; yet the use of
    [p] is extracted into the fresh local [_0] and is not returned
    unchanged. *)
Lemma getReadableExpressionName_parameter_extracted :
  let p := MoreSample.parameterUnderExportLet in
  ~ BoundByExportLet p /\
  JS.matchesTempId "p" = false /\
  getReadableExpressionName (Identifier p) "p" Sample.state0
  = Ok "_0" (extracted Sample.state0 "_0" "p" 0 [] [] []) /\
  getReadableExpressionName (Identifier p) "p" Sample.state0
  <> Ok "p" Sample.state0.
Proof.
  cbv zeta. split; [| split; [| split]].
  - intros (def & [<- | []] & _ & Hdeclared). discriminate Hdeclared.
  - reflexivity.
  - reflexivity.
  - intros Heq. vm_compute in Heq. discriminate Heq.
Qed.

(** **** Return statements *)

(** C6. A return statement without an expression lowers to the single
    line [return nil;] at the current indentation; the state is left as
    it was. *)
Theorem compileReturnStatement_bare {collab : Collaborators}
  (ancestors : list Ancestor) (st : CompilerState) :
  compileReturnStatement
    {| getExpression := None; getAncestors := ancestors |} st
  = Ok (indent st ++ "return nil;" ++ JS.nl) st.
Proof. reflexivity. Qed.

(** C1. In a function whose declared return type is a tuple, the
    expression of a return statement (parentheses and non-null
    assertions removed) is lowered by the first case that applies:
    - an array literal: the lowered literal without its first two and
      its last two characters, so the elements between the braces of a
      table literal are returned as they are;
    - a call of a tuple-returning function: the lowered call, compiled
      with its wrapping suppressed, is returned directly;
    - anything else: the lowered expression is returned through
      [unpack]. *)
Theorem getReturnStrFromExpression_tuple {collab : Collaborators}
  (exp : Expression) (func : HasParameters) (st st' : CompilerState)
  (s : string) :
  isTupleReturnType func = true ->
  let e := skipParentheses exp in
  (isArrayLiteralExpression e = true ->
   compileExpression e st = Ok s st' ->
   getReturnStrFromExpression exp (Some func) st
   = Ok ("return " ++ JS.substr 2 (String.length s - 4) s ++ ";") st' /\
   forall inner, s = "{ " ++ inner ++ " }" ->
     getReturnStrFromExpression exp (Some func) st
     = Ok ("return " ++ inner ++ ";") st') /\
  (isArrayLiteralExpression e = false ->
   isCallExpression e = true -> isTupleReturnTypeCall e = true ->
   compileCallExpression e true st = Ok s st' ->
   getReturnStrFromExpression exp (Some func) st
   = Ok ("return " ++ s ++ ";") st') /\
  (isArrayLiteralExpression e = false ->
   isCallExpression e && isTupleReturnTypeCall e = false ->
   compileExpression e st = Ok s st' ->
   getReturnStrFromExpression exp (Some func) st
   = Ok ("return unpack(" ++ s ++ ");") st').
Proof.
  intros Htuple e. unfold getReturnStrFromExpression. fold e.
  rewrite Htuple. split; [| split].
  - intros -> Hc. run. rewrite Hc. split; [reflexivity|].
    intros inner ->. now rewrite JSFacts.substr_braces.
  - intros -> -> -> Hc. simpl. run. now rewrite Hc.
  - intros -> -> Hc. run. now rewrite Hc.
Qed.


Lemma getReturnStrFromExpression_tuple_witness :
  getReturnStrFromExpression (collab := Sample.collaborators)
    (ParenthesizedExpression Sample.pairLiteral Sample.pairType)
    (Some Sample.pairFunction) Sample.state0
  = Ok "return a, b;" Sample.state0 /\
  getReturnStrFromExpression (collab := Sample.collaborators) Sample.pairCall
    (Some Sample.pairFunction) Sample.state0
  = Ok "return g();" Sample.state0 /\
  getReturnStrFromExpression (collab := Sample.collaborators)
    Sample.pairVariable (Some Sample.pairFunction) Sample.state0
  = Ok "return unpack(t);" Sample.state0.
Proof.
  split; [| split].
  - refine (proj2 (proj1 (@getReturnStrFromExpression_tuple
                            Sample.collaborators
                            (ParenthesizedExpression Sample.pairLiteral
                                                     Sample.pairType)
                            Sample.pairFunction Sample.state0 Sample.state0
                            "{ a, b }" _) _ _) "a, b" _); reflexivity.
  - refine (proj1 (proj2 (@getReturnStrFromExpression_tuple
                            Sample.collaborators Sample.pairCall
                            Sample.pairFunction Sample.state0 Sample.state0
                            "g()" _)) _ _ _ _); reflexivity.
  - refine (proj2 (proj2 (@getReturnStrFromExpression_tuple
                            Sample.collaborators Sample.pairVariable
                            Sample.pairFunction Sample.state0 Sample.state0
                            "t" _)) _ _ _); reflexivity.
Defined.

(** **** Element access *)

(** C2, as the code has it.  Take an element access [a[i]] whose index
    has a numeric static type, and let the offset index be the index
    plus one: folded into the number at compile time when the index is
    a numeric literal spelled without the letter [e], and the lowered
    index followed by [+ 1] otherwise.
    - When the base is a call of a function declared to return a tuple,
      the access is [select] over the results of the call at the offset
      index, or the parenthesized call alone when the text of the
      offset index is [1].
    - When the base has an array type (and is no such call), the access
      is an indexing of the lowered base, parenthesized when it is a
      fresh array, at the offset index. *)
Theorem compileElementAccessExpression_offset {collab : Collaborators}
  (expNode argExp : Expression) (st st1 st2 : CompilerState)
  (idx text : string) :
  isNumberType (getType argExp) = true ->
  IndexPlusOne argExp st idx st1 ->
  checkNonAny (ExpressionNode expNode) = None ->
  checkNonAny (ExpressionNode argExp) = None ->
  (isCallExpression expNode = true ->
   isTupleReturnTypeCall expNode = true ->
   compileCallExpression expNode true st1 = Ok text st2 ->
   compileElementAccessExpression expNode argExp st
   = Ok (if String.eqb idx "1" then "(" ++ text ++ ")"
         else "(select(" ++ idx ++ ", " ++ text ++ "))") st2) /\
  (isArrayType (getType expNode) = true ->
   isCallExpression expNode && isTupleReturnTypeCall expNode = false ->
   compileExpression expNode st1 = Ok text st2 ->
   compileElementAccessExpression expNode argExp st
   = Ok (indexedBase expNode text ++ "[" ++ idx ++ "]") st2).
Proof.
  intros Hnum Hidx Hc1 Hc2. split.
  - intros Hcall Htuple Hcompile.
    unfold compileElementAccessExpression.
    rewrite Hnum, Hcall, Htuple. simpl.
    assert (Hadd : (if isArrayType (getType expNode) then true else true) = true)
      by now destruct (isArrayType (getType expNode)).
    rewrite Hadd.
    destruct Hidx as [(Hf & lit & Hlit & ->) | (Hf & c & Hc & ->)];
      rewrite Hf; run; [rewrite Hlit | rewrite Hc];
      rewrite Hcompile, Hc1, Hc2; run;
      now destruct (String.eqb _ _).
  - intros Harr Hnot Hcompile.
    unfold compileElementAccessExpression.
    rewrite Hnum, Harr, Hnot.
    destruct Hidx as [(Hf & lit & Hlit & ->) | (Hf & c & Hc & ->)];
      rewrite Hf; run; [rewrite Hlit | rewrite Hc];
      rewrite Hcompile, Hc1, Hc2; run; unfold indexedBase;
      destruct expNode; simpl;
      try match goal with |- context [if ?b then _ else _] =>
        destruct b end;
      simpl; now rewrite ?JSFacts.append_assoc.
Qed.

Lemma compileElementAccessExpression_offset_witness :
  compileElementAccessExpression (collab := Sample.collaborators)
    Sample.arr (NumericLiteral "0" Sample.numberType) Sample.state0
  = Ok "arr[1]" Sample.state0 /\
  compileElementAccessExpression (collab := Sample.collaborators)
    Sample.arr Sample.i Sample.state0
  = Ok "arr[i + 1]" Sample.state0 /\
  compileElementAccessExpression (collab := Sample.collaborators)
    Sample.pairCall (NumericLiteral "0" Sample.numberType) Sample.state0
  = Ok "(g())" Sample.state0 /\
  compileElementAccessExpression (collab := Sample.collaborators)
    Sample.pairCall Sample.i Sample.state0
  = Ok "(select(i + 1, g()))" Sample.state0.
Proof.
  assert (fold0 :
    IndexPlusOne (collab := Sample.collaborators)
      (NumericLiteral "0" Sample.numberType) Sample.state0 "1" Sample.state0).
  { left. split; [reflexivity|]. exists "0". split; reflexivity. }
  assert (runi :
    IndexPlusOne (collab := Sample.collaborators)
      Sample.i Sample.state0 "i + 1" Sample.state0).
  { right. split; [reflexivity|]. exists "i". split; reflexivity. }
  split; [| split; [| split]].
  - exact (proj2 (@compileElementAccessExpression_offset
                    Sample.collaborators Sample.arr
                    (NumericLiteral "0" Sample.numberType)
                    Sample.state0 Sample.state0 Sample.state0 "1" "arr"
                    eq_refl fold0 eq_refl eq_refl)
             eq_refl eq_refl eq_refl).
  - exact (proj2 (@compileElementAccessExpression_offset
                    Sample.collaborators Sample.arr Sample.i
                    Sample.state0 Sample.state0 Sample.state0 "i + 1" "arr"
                    eq_refl runi eq_refl eq_refl)
             eq_refl eq_refl eq_refl).
  - exact (proj1 (@compileElementAccessExpression_offset
                    Sample.collaborators Sample.pairCall
                    (NumericLiteral "0" Sample.numberType)
                    Sample.state0 Sample.state0 Sample.state0 "1" "g()"
                    eq_refl fold0 eq_refl eq_refl)
             eq_refl eq_refl eq_refl).
  - exact (proj1 (@compileElementAccessExpression_offset
                    Sample.collaborators Sample.pairCall Sample.i
                    Sample.state0 Sample.state0 Sample.state0 "i + 1" "g()"
                    eq_refl runi eq_refl eq_refl)
             eq_refl eq_refl eq_refl).
Defined.

(** C2, as the specification words it, fails on a literal in exponent
    notation: the index of [arr[1e2]] is a numeric literal and the base
    an array, yet the emitted index is the runtime sum [1e2 + 1], not
    the folded constant [101].  And the selection over the results of a
    tuple-returning call is made at the offset index: [g()[i]] is
    [select] at [i + 1]. *)
Lemma compileElementAccessExpression_literal_not_folded :
  let index := NumericLiteral "1e2" Sample.numberType in
  isNumericLiteral index = true /\
  isNumberType (Collaborators := Sample.collaborators) (getType index) = true /\
  isArrayType (Collaborators := Sample.collaborators) (getType Sample.arr) = true /\
  compileElementAccessExpression (collab := Sample.collaborators)
    Sample.arr index Sample.state0
  = Ok "arr[1e2 + 1]" Sample.state0 /\
  compileElementAccessExpression (collab := Sample.collaborators)
    Sample.arr index Sample.state0
  <> Ok "arr[101]" Sample.state0 /\
  compileElementAccessExpression (collab := Sample.collaborators)
    Sample.pairCall Sample.i Sample.state0
  = Ok "(select(i + 1, g()))" Sample.state0.
Proof.
  cbv zeta. split; [| split; [| split; [| split; [| split]]]];
    try reflexivity.
  intros Heq. vm_compute in Heq. discriminate Heq.
Qed.

(** C10. A numeric literal whose text contains the letter [e] is never
    folded, whatever the base of the access: as an index it is lowered
    like any other expression, and the offset of one, where it applies,
    is the text [+ 1] appended to the lowered literal.  It applies in
    particular when the index is numeric and the base has an array
    type.  The index so obtained is selected from the results of the
    call when the base is a call of a tuple-returning function, and it
    indexes the lowered base otherwise. *)
Theorem compileElementAccessExpression_exponent {collab : Collaborators}
  (expNode : Expression) (text : string) (ty : TsType)
  (st st1 st2 : CompilerState) (compiled base : string) :
  JS.includesChar "e" text = true ->
  compileExpression (NumericLiteral text ty) st = Ok compiled st1 ->
  checkNonAny (ExpressionNode expNode) = None ->
  checkNonAny (ExpressionNode (NumericLiteral text ty)) = None ->
  let index := NumericLiteral text ty in
  let idx :=
    compiled ++
    (if offsetApplies expNode index then " + 1" else EmptyString) in
  (isNumberType ty = true -> isArrayType (getType expNode) = true ->
   idx = compiled ++ " + 1") /\
  (isCallExpression expNode && isTupleReturnTypeCall expNode = true ->
   compileCallExpression expNode true st1 = Ok base st2 ->
   compileElementAccessExpression expNode index st
   = Ok (if String.eqb idx "1" then "(" ++ base ++ ")"
         else "(select(" ++ idx ++ ", " ++ base ++ "))") st2) /\
  (isCallExpression expNode && isTupleReturnTypeCall expNode = false ->
   compileExpression expNode st1 = Ok base st2 ->
   compileElementAccessExpression expNode index st
   = Ok (indexedBase expNode base ++ "[" ++ idx ++ "]") st2).
Proof.
  intros He Hidx Hc1 Hc2 index idx. subst idx index.
  assert (Hoffset :
    (if isNumberType ty then
       if isArrayType (getType expNode) then true
       else if isCallExpression expNode &&
               (isTupleReturnTypeCall expNode ||
                isArrayType (callReturnType expNode))
       then true else false
     else false) = offsetApplies expNode (NumericLiteral text ty)).
  { unfold offsetApplies. cbn [getType].
    destruct (isNumberType ty), (isArrayType (getType expNode)),
      (isCallExpression expNode), (isTupleReturnTypeCall expNode),
      (isArrayType (callReturnType expNode)); reflexivity. }
  split; [| split].
  - intros Hnum Harr. unfold offsetApplies. cbn [getType].
    now rewrite Hnum, Harr.
  - intros Htuple Hbase.
    unfold compileElementAccessExpression, isFoldableLiteral.
    change (getType (NumericLiteral text ty)) with ty.
    rewrite Hoffset, He, Htuple. cbn [negb].
    run. rewrite Hidx, Hbase, Hc1, Hc2.
    now destruct (String.eqb _ "1").
  - intros Hplain Hbase.
    unfold compileElementAccessExpression, isFoldableLiteral.
    change (getType (NumericLiteral text ty)) with ty.
    rewrite Hoffset, He, Hplain. cbn [negb].
    run. rewrite Hidx, Hbase, Hc1, Hc2. unfold indexedBase.
    destruct expNode; simpl;
      try match goal with |- context [if ?b then (fun _ => _) else _] =>
        destruct b end;
      simpl; now rewrite ?JSFacts.append_assoc.
Qed.

Lemma compileElementAccessExpression_exponent_witness :
  compileElementAccessExpression (collab := Sample.collaborators)
    Sample.arr (NumericLiteral "1e2" Sample.numberType) Sample.state0
  = Ok "arr[1e2 + 1]" Sample.state0 /\
  compileElementAccessExpression (collab := Sample.collaborators)
    MoreSample.arrayCall (NumericLiteral "1e2" Sample.numberType)
    Sample.state0
  = Ok "list()[1e2 + 1]" Sample.state0 /\
  compileElementAccessExpression (collab := Sample.collaborators)
    Sample.pairCall (NumericLiteral "1e2" Sample.numberType) Sample.state0
  = Ok "(select(1e2 + 1, g()))" Sample.state0 /\
  compileElementAccessExpression (collab := Sample.collaborators)
    (Sample.var "map" MoreSample.recordType)
    (NumericLiteral "1e2" Sample.numberType) Sample.state0
  = Ok "map[1e2]" Sample.state0.
Proof.
  split; [| split; [| split]].
  - exact (proj2 (proj2 (@compileElementAccessExpression_exponent
             Sample.collaborators Sample.arr "1e2" Sample.numberType
             Sample.state0 Sample.state0 Sample.state0 "1e2" "arr"
             eq_refl eq_refl eq_refl eq_refl)) eq_refl eq_refl).
  - exact (proj2 (proj2 (@compileElementAccessExpression_exponent
             Sample.collaborators MoreSample.arrayCall "1e2"
             Sample.numberType
             Sample.state0 Sample.state0 Sample.state0 "1e2" "list()"
             eq_refl eq_refl eq_refl eq_refl)) eq_refl eq_refl).
  - exact (proj1 (proj2 (@compileElementAccessExpression_exponent
             Sample.collaborators Sample.pairCall "1e2" Sample.numberType
             Sample.state0 Sample.state0 Sample.state0 "1e2" "g()"
             eq_refl eq_refl eq_refl eq_refl)) eq_refl eq_refl).
  - exact (proj2 (proj2 (@compileElementAccessExpression_exponent
             Sample.collaborators (Sample.var "map" MoreSample.recordType)
             "1e2" Sample.numberType
             Sample.state0 Sample.state0 Sample.state0 "1e2" "map"
             eq_refl eq_refl eq_refl eq_refl)) eq_refl eq_refl).
Defined.

(** **** Property access *)

(** What [compilePropertyAccessExpression] does once it looks at the
    value declaration of the type symbol of the base. *)
Lemma compilePropertyAccessExpression_symbol {collab : Collaborators}
  (exp : Expression) (nameNode : IdentifierNode) (ty : TsType)
  (st st3 : CompilerState) (expStr : string) (valDec : Declaration) :
  OrdinaryAccess exp nameNode ty st expStr st3 ->
  valueDeclarationOf exp = Some valDec ->
  compilePropertyAccessExpression exp nameNode ty st
  = let node := PropertyAccessExpression exp nameNode ty in
    let propertyStr := identText nameNode in
    let plain := Ok (expStr ++ "." ++ propertyStr) st3 in
    match valDec with
    | FunctionDeclarationDecl
    | ArrowFunctionDecl
    | FunctionExpressionDecl
    | MethodDeclarationDecl =>
        Throw (diagnostic "Cannot index a function value!"
                 (ExpressionNode node) NoFunctionIndex) st3
    | EnumDeclarationDecl true members =>
        match getMember members propertyStr with
        | None => Throw (HostError "getMemberOrThrow") st3
        | Some (EnumNumber value) => Ok (numberToString value) st3
        | Some (EnumString value) => Ok (JS.quote ++ value ++ JS.quote) st3
        | Some EnumUndefined => plain
        end
    | ClassDeclarationDecl =>
        if String.eqb propertyStr "prototype"
        then Throw (diagnostic "Class prototypes are not supported!"
                      (ExpressionNode node) NoClassPrototype) st3
        else plain
    | _ => plain
    end.
Proof.
  intros (st1 & st2 & Hexp & Htype & Hapi & Hc1 & Hc2 & Hsuper) Hdec.
  unfold valueDeclarationOf in Hdec.
  destruct (getSymbol (getType exp)) as [symbol|] eqn:Hsym; [|discriminate].
  unfold compilePropertyAccessExpression. run.
  rewrite Hexp, Htype. cbn [PropertyCallExpType_eqb orb andb negb].
  rewrite Hapi, Hc1, Hc2, Hsuper, Hsym, Hdec. unfold diagnostic.
  destruct valDec as [ | | | | [] members | | ]; try reflexivity.
  - destruct (getMember members (identText nameNode)) as [[]|]; reflexivity.
  - destruct (String.eqb (identText nameNode) "prototype"); reflexivity.
Qed.

(** C7. A property access on a base whose type symbol is declared by a
    constant enumeration, naming a member whose value is a number or a
    string, lowers to that value alone: the printed number, or the
    string between double quotes.  The text of the lowered base, and
    with it any field lookup, is not part of the result. *)
Theorem compilePropertyAccessExpression_const_enum {collab : Collaborators}
  (exp : Expression) (nameNode : IdentifierNode) (ty : TsType)
  (st st3 : CompilerState) (expStr : string)
  (members : list (string * EnumValue)) (value : EnumValue) :
  OrdinaryAccess exp nameNode ty st expStr st3 ->
  valueDeclarationOf exp = Some (EnumDeclarationDecl true members) ->
  getMember members (identText nameNode) = Some value ->
  (forall number, value = EnumNumber number ->
     compilePropertyAccessExpression exp nameNode ty st
     = Ok (numberToString number) st3) /\
  (forall text, value = EnumString text ->
     compilePropertyAccessExpression exp nameNode ty st
     = Ok (JS.quote ++ text ++ JS.quote) st3).
Proof.
  intros Hplain Hdec Hmember.
  rewrite (compilePropertyAccessExpression_symbol
             exp nameNode ty st st3 expStr _ Hplain Hdec).
  cbv zeta. rewrite Hmember.
  split; intros ? ->; reflexivity.
Qed.

(** In the sample instance an access that is no macro goes through its
    first steps without a change of state. *)
Lemma sample_ordinary_access (base : Expression) (name : string) :
  isSuperExpression base = false ->
  Sample.endsWith "[]" (typeText (getType base)) = false ->
  OrdinaryAccess (collab := Sample.collaborators)
    base (Sample.ident name Sample.numberType) Sample.numberType
    Sample.state0 (Sample.emit base) Sample.state0.
Proof.
  intros Hsuper Harray. exists Sample.state0, Sample.state0.
  repeat split; try assumption.
  simpl. unfold ret. now rewrite Harray.
Defined.

Lemma compilePropertyAccessExpression_const_enum_witness :
  compilePropertyAccessExpression (collab := Sample.collaborators)
    (Sample.var "Color" Sample.colorEnum)
    (Sample.ident "Red" Sample.numberType) Sample.numberType Sample.state0
  = Ok "3" Sample.state0 /\
  compilePropertyAccessExpression (collab := Sample.collaborators)
    (Sample.var "Color" Sample.colorEnum)
    (Sample.ident "Name" Sample.numberType) Sample.numberType Sample.state0
  = Ok (JS.quote ++ "red" ++ JS.quote) Sample.state0.
Proof.
  split.
  - exact (proj1 (@compilePropertyAccessExpression_const_enum
                    Sample.collaborators
                    (Sample.var "Color" Sample.colorEnum)
                    (Sample.ident "Red" Sample.numberType) Sample.numberType
                    Sample.state0 Sample.state0 "Color" _ _
                    (sample_ordinary_access
                       (Sample.var "Color" Sample.colorEnum) "Red"
                       eq_refl eq_refl)
                    eq_refl eq_refl)
             (JS.ofZ 3) eq_refl).
  - exact (proj2 (@compilePropertyAccessExpression_const_enum
                    Sample.collaborators
                    (Sample.var "Color" Sample.colorEnum)
                    (Sample.ident "Name" Sample.numberType) Sample.numberType
                    Sample.state0 Sample.state0 "Color" _ _
                    (sample_ordinary_access
                       (Sample.var "Color" Sample.colorEnum) "Name"
                       eq_refl eq_refl)
                    eq_refl eq_refl)
             "red" eq_refl).
Defined.

(** **** Diagnostics *)






(** **** The receiver parameter *)




(** **** Generators *)

(** X26. The text emitted for a generator function (the generator
    marker on a function that is no arrow function, accessor or
    constructor): the closure that [compileFunction] emits has one
    statement, which returns a table whose field [next] is
    [coroutine.wrap] of a function made of the lowered body of the
    generator, followed by the line
    [repeat coroutine.yield({ done = true }) until false].  The body is
    lowered two levels of indentation further in than the head. *)
Theorem compileFunction_generator {collab : Collaborators}
  (node : HasParameters) (name : string) (body : Body)
  (st st1 st2 : CompilerState) (data : ParameterData) (bodyStr : string) :
  isGeneratorFunction node = true ->
  getParameterData node false (withIdStack (cons 0) st) = Ok data st1 ->
  checkReturnsNonAny node = None ->
  isIterableIterator (getReturnType node) node = None ->
  let inner := withIndent indented (withIndent indented (headerState node name st1)) in
  compileFunctionBody body node (pushedInitializers data) inner
  = Ok bodyStr st2 ->
  compileFunction node name body st
  = Ok (functionHead node name st1 ++
        "function(" ++ JS.join ", " (parameterNames node data) ++ ")" ++ JS.nl ++
        indented (indent st1) ++ "return {" ++ JS.nl ++
        indented (indented (indent st1)) ++
        "next = coroutine.wrap(function()" ++
        bodyStr ++
        JS.tab ++ "repeat coroutine.yield({ done = true }) until false;" ++
        JS.nl ++
        indent st2 ++ "end);" ++ JS.nl ++
        unindented (indent st2) ++ "};" ++ JS.nl ++
        unindented (unindented (indent st2)) ++
        functionTail node name)
       (withIdStack (@tl nat)
          (withIndent unindented (withIndent unindented st2))).
Proof.
  intros Hgen Hdata Hcheck Hiter inner Hbody.
  unfold compileFunction, pushIdStack, pushIndent, popIndent, popIdStack,
    pushHoistStack. run.
  rewrite Hdata, Hcheck, Hgen, Hiter.
  unfold inner, headerState, functionHead, functionTail, declarationPrefix,
    hoisted, parameterNames, indented, unindented in *.
  destruct (kind node) eqn:Hkind;
    try (unfold isGeneratorFunction in Hgen; rewrite Hkind in Hgen;
         discriminate Hgen);
    unfold wrapsAsync, isMethodLike in *; rewrite Hkind in *.
  all: destruct (isAsync node); destruct (String.eqb name EmptyString);
    try destruct (getNameNode node) as [nameNode|];
    try destruct (shouldHoist node nameNode);
    cbn -[JS.join append JS.tab JS.nl] in *;
    rewrite Hbody; cbn -[JS.join append JS.tab JS.nl];
    f_equal; rewrite ?JSFacts.append_assoc; reflexivity.
Qed.

Lemma compileFunction_generator_witness :
  compileFunction (collab := Sample.collaborators)
    Sample.generatorNode "count" Sample.generatorBody Sample.state0
  = Ok ("local count = function()" ++ JS.nl ++
        JS.tab ++ "return {" ++ JS.nl ++
        JS.tab ++ JS.tab ++ "next = coroutine.wrap(function()" ++ JS.nl ++
        JS.tab ++ JS.tab ++ JS.tab ++
        "coroutine.yield({ value = 1, done = false });" ++ JS.nl ++
        JS.tab ++ JS.tab ++ JS.tab ++
        "repeat coroutine.yield({ done = true }) until false;" ++ JS.nl ++
        JS.tab ++ JS.tab ++ "end);" ++ JS.nl ++
        JS.tab ++ "};" ++ JS.nl ++
        "end;" ++ JS.nl)
       Sample.state0.
Proof.
  exact (@compileFunction_generator Sample.collaborators
           Sample.generatorNode "count" Sample.generatorBody
           Sample.state0 _ _ _ _
           eq_refl eq_refl eq_refl eq_refl eq_refl).
Defined.

(** C4, at a generator whose body returns.  For
    [function* count() { yield 1; return 2; }] the function is lowered
    as a generator, and its return statement is lowered by
    [compileReturnStatement] as in any other function: the line
    [return 2;] stands in the wrapped function, ahead of the loop that
    yields the terminal marker. *)
Theorem compileFunction_generator_return :
  isGeneratorFunction Sample.generatorNode = true /\
  getFirstMemberWithParameters [FunctionLikeAncestor Sample.generatorNode]
  = Some Sample.generatorNode /\
  compileFunction (collab := MoreSample.returningCollaborators)
    Sample.generatorNode "count" MoreSample.returningGeneratorBody
    Sample.state0
  = Ok ("local count = function()" ++ JS.nl ++
        JS.tab ++ "return {" ++ JS.nl ++
        JS.tab ++ JS.tab ++ "next = coroutine.wrap(function()" ++ JS.nl ++
        JS.tab ++ JS.tab ++ JS.tab ++
        "coroutine.yield({ value = 1, done = false });" ++ JS.nl ++
        JS.tab ++ JS.tab ++ JS.tab ++ "return 2;" ++ JS.nl ++
        JS.tab ++ JS.tab ++ JS.tab ++
        "repeat coroutine.yield({ done = true }) until false;" ++ JS.nl ++
        JS.tab ++ JS.tab ++ "end);" ++ JS.nl ++
        JS.tab ++ "};" ++ JS.nl ++
        "end;" ++ JS.nl)
       Sample.state0.
Proof.
  split; [| split]; reflexivity.
Qed.

End CompilerFacts.

(* ===================================================================== *)
(** ** Properties of [transformParameters.ts] *)
(* ===================================================================== *)

Module TransformerFacts.

Import TSTransformer TransformShapes.

Ltac run := unfold bind, ret, throw.

Section Loop.

Context {tr : Transforms}.

(** The lowering of a default value, given what the transform of the
    initializer returns inside the fresh buffer. *)
Lemma transformParamInitializer_run
  (paramId : Identifier) (init : TsExpression) (st st2 : TransformState)
  (value : Expression) (pre : list Statement) (rest : list (list Statement)) :
  transformExpression init (inFreshBuffer st) = Ok value st2 ->
  prereqStatementsStack st2 = pre :: rest ->
  transformParamInitializer paramId init st
  = Ok (defaultGuard paramId pre value) {| prereqStatementsStack := rest |}.
Proof.
  intros Hvalue Hstack.
  unfold transformParamInitializer, statement, pushPrereqStatementsStack,
    popPrereqStatementsStack, prereq. run.
  fold (inFreshBuffer st). rewrite Hvalue, Hstack. reflexivity.
Qed.

(** The loop over two runs of parameters is the loop over the first
    followed by the loop over the second. *)
Lemma transformParametersFrom_app
  (l1 l2 : list ParameterDeclaration) :
  forall acc st,
    transformParametersFrom (l1 ++ l2) acc st
    = match transformParametersFrom l1 acc st with
      | Ok acc' st' => transformParametersFrom l2 acc' st'
      | Throw e st' => Throw e st'
      end.
Proof.
  induction l1 as [|p l1 IH]; intros acc st; [reflexivity|].
  simpl. destruct (name p) as [tsName|]; [| reflexivity].
  run. destruct (transformIdentifierDefined tsName st) as [paramId st1|];
    [| reflexivity].
  destruct (initializer p) as [init|].
  - destruct (transformParamInitializer paramId init st1); [| reflexivity].
    apply IH.
  - apply IH.
Qed.

Hypothesis identifiers_defined :
  forall id st, exists paramId st',
    transformIdentifierDefined id st = Ok paramId st'.

Hypothesis expressions_keep_buffer :
  forall e st, prereqStatementsStack st <> [] ->
    exists value st',
      transformExpression e st = Ok value st' /\
      prereqStatementsStack st' <> [].

Lemma transformParamInitializer_total
  (paramId : Identifier) (init : TsExpression) (st : TransformState) :
  exists value st2 pre rest,
    transformExpression init (inFreshBuffer st) = Ok value st2 /\
    prereqStatementsStack st2 = pre :: rest /\
    transformParamInitializer paramId init st
    = Ok (defaultGuard paramId pre value) {| prereqStatementsStack := rest |}.
Proof.
  destruct (expressions_keep_buffer init (inFreshBuffer st))
    as (value & st2 & Hvalue & Hstack); [discriminate|].
  destruct (prereqStatementsStack st2) as [|pre rest] eqn:Hst2;
    [contradiction|].
  exists value, st2, pre, rest. repeat split; try assumption.
  now apply transformParamInitializer_run with (st2 := st2).
Qed.

(** With parameters that are all named by identifiers the loop returns,
    and it only appends to what it was given. *)
Lemma transformParametersFrom_total (l : list ParameterDeclaration) :
  forallb isIdentifierName l = true ->
  forall acc st,
    exists res st' newParameters newStatements,
      transformParametersFrom l acc st = Ok res st' /\
      parameters res = (parameters acc ++ newParameters)%list /\
      statements res = (statements acc ++ newStatements)%list.
Proof.
  induction l as [|p l IH]; intros Hnames acc st.
  - exists acc, st, [], []. now rewrite !app_nil_r.
  - simpl in Hnames. apply andb_prop in Hnames as [Hp Hl].
    unfold isIdentifierName in Hp. simpl.
    destruct (name p) as [tsName|]; [| discriminate].
    run. destruct (identifiers_defined tsName st) as (paramId & st1 & ->).
    destruct (initializer p) as [init|];
      [ destruct (transformParamInitializer_total paramId init st1)
          as (value & st2 & pre & rest & _ & _ & ->) | ];
      destruct (dotDotDotToken p);
      match goal with |- context [transformParametersFrom l ?a ?s] =>
        destruct (IH Hl a s) as (res & st' & ps & ss & -> & Hps & Hss) end;
      simpl in Hps, Hss;
      eexists; eexists; eexists; eexists;
      (split; [reflexivity|]);
      rewrite Hps, Hss, <- ?app_assoc; split; reflexivity.
Qed.

End Loop.

(** C9. For a parameter that has a default value, among parameters that
    are all named by identifiers, [transformParameters] returns and the
    statements it returns have this shape ([DefaultGuardEmitted]): the
    statements of the parameters before it, then (for a rest parameter)
    the declaration that binds it, then the statement
    [if paramId == nil then ... paramId = value end], then the
    statements of the parameters after it.  [paramId] is the lowered
    name of the parameter, and [value] is the lowered initializer; the
    statements the lowering of the initializer emitted stand before the
    assignment inside the [if].  The guards are statements of the body,
    in the order of the parameters, and the identifiers of the
    parameters before are the first of the returned parameter list: a
    default value can name an earlier parameter. *)
Theorem default_parameter_guard {tr : Transforms}
  (before after : list ParameterDeclaration) (param : ParameterDeclaration)
  (tsName : TsIdentifier) (init : TsExpression) (st : TransformState) :
  (forall id st, exists paramId st',
     transformIdentifierDefined id st = Ok paramId st') ->
  (forall e st, prereqStatementsStack st <> [] ->
     exists value st',
       transformExpression e st = Ok value st' /\
       prereqStatementsStack st' <> []) ->
  forallb isIdentifierName (before ++ after) = true ->
  name param = IdentifierName tsName ->
  initializer param = Some init ->
  DefaultGuardEmitted before param after tsName init st.
Proof.
  intros Hids Hexprs Hnames Hname Hinit. unfold DefaultGuardEmitted.
  rewrite forallb_app in Hnames. apply andb_prop in Hnames as [Hb Ha].
  unfold transformParameters.
  destruct (transformParametersFrom_total Hids Hexprs before Hb
              {| parameters := []; statements := []; hasDotDotDot := false |}
              st)
    as (earlier & stB & ps & ss & Hrun & _ & _).
  destruct (Hids tsName stB) as (paramId & st1 & Hid).
  destruct (transformParamInitializer_total Hexprs paramId init st1)
    as (value & st2 & pre & rest & Hvalue & Hstack & Hguard).
  rewrite transformParametersFrom_app, Hrun.
  simpl. rewrite Hname. run. rewrite Hid, Hinit, Hguard.
  match goal with |- context [transformParametersFrom after ?a ?s] =>
    destruct (transformParametersFrom_total Hids Hexprs after Ha a s)
      as (final & st' & lp & ls & Hfinal & Hps & Hss) end.
  simpl in Hps, Hss.
  exists earlier, stB, paramId, st1, value, st2, pre, final, st', lp, ls.
  split; [reflexivity|]. split; [exact Hid|]. split; [exact Hvalue|].
  split; [now rewrite Hstack|]. split; [exact Hfinal|]. split.
  - rewrite Hss. unfold restBinding.
    destruct (dotDotDotToken param); simpl; now rewrite <- ?app_assoc.
  - rewrite Hps.
    destruct (dotDotDotToken param); simpl; now rewrite <- ?app_assoc.
Qed.

Lemma default_parameter_guard_witness :
  DefaultGuardEmitted (tr := SampleTransforms.transforms)
    [SampleTransforms.paramX] SampleTransforms.paramY []
    SampleTransforms.y
    (TsBinaryExpression (TsIdentifierExpression SampleTransforms.x) "+"
                        (TsNumericLiteral "1"))
    SampleTransforms.state0.
Proof.
  apply (@default_parameter_guard SampleTransforms.transforms).
  - intros id st. eexists. eexists. reflexivity.
  - intros e st Hst. eexists. eexists. split; [reflexivity | exact Hst].
  - reflexivity.
  - reflexivity.
  - reflexivity.
Defined.

(** The scenario of the specification, [(x: number, y: number = x + 1)]:
    two parameters and the one statement
    [if y == nil then y = x + 1 end]. *)
Example default_parameter_scenario :
  transformParameters (tr := SampleTransforms.transforms)
    [SampleTransforms.paramX; SampleTransforms.paramY] SampleTransforms.state0
  = Ok {| parameters := [ {| luaName := "x" |}; {| luaName := "y" |} ];
          statements :=
            [ IfStatement
                (BinaryExpression (IdentifierExpression {| luaName := "y" |})
                                  "==" NilLiteral)
                [ Assignment {| luaName := "y" |}
                    (BinaryExpression
                       (IdentifierExpression {| luaName := "x" |}) "+"
                       (NumberLiteral "1")) ]
                [] ];
          hasDotDotDot := false |}
       SampleTransforms.state0.
Proof. reflexivity. Qed.

End TransformerFacts.

(* ===================================================================== *)
(** ** Further properties of [function.ts] *)
(* ===================================================================== *)

Module FunctionFacts.

Import Compiler Shapes MoreShapes Declarations.

Ltac run :=
  unfold bind, ret, gets, modify, liftCheck, throwCompilerError, throw.

(** **** Helpers *)

Lemma append_nil_r (s : string) : s ++ EmptyString = s.
Proof. induction s as [|c s IH]; simpl; [reflexivity | now rewrite IH]. Qed.

Lemma indentedLines_from (ind acc : string) (lines : list string) :
  fold_left (fun result line => result ++ ind ++ line ++ JS.nl) lines acc
  = acc ++ String.concat EmptyString
             (map (fun line => ind ++ line ++ JS.nl) lines).
Proof.
  revert acc. induction lines as [|l lines IH]; intros acc; simpl.
  - now rewrite append_nil_r.
  - rewrite IH. destruct lines as [|l' lines]; simpl.
    + now rewrite !append_nil_r.
    + now rewrite JSFacts.append_assoc.
Qed.

(** Pushing one level of indentation and popping it gives back an
    indentation made of tabs. *)
Lemma unindented_indented (s : string) :
  allTabs s = true -> unindented (indented s) = s.
Proof.
  unfold unindented, indented, JS.substr.
  destruct s as [|c s]; [reflexivity|].
  simpl. intros Hs. apply andb_prop in Hs as [Hc Hs].
  apply Ascii.eqb_eq in Hc. subst c.
  rewrite JSFacts.length_append. simpl.
  replace (String.length s + 1) with (S (String.length s)) by lia.
  revert Hs. clear. induction s as [|c s IH]; simpl; [reflexivity|].
  intros Hs. apply andb_prop in Hs as [Hc Hs].
  apply Ascii.eqb_eq in Hc. subst c.
  f_equal. destruct s as [|c s]; [reflexivity|].
  specialize (IH Hs). simpl in IH |- *.
  apply andb_prop in Hs as [Hc Hs']. apply Ascii.eqb_eq in Hc. subst c.
  exact IH.
Qed.

(** **** The enclosing function of a return statement *)

(** X1. [getFirstMemberWithParameters] returns the innermost function-
    like ancestor: it answers [f] exactly when [f] is preceded, in the
    list of ancestors, by nodes that are no function-like nodes, and it
    answers nothing exactly when the list holds no function-like node. *)
Theorem getFirstMemberWithParameters_innermost
  (ancestors : list Ancestor) :
  (forall f,
     getFirstMemberWithParameters ancestors = Some f <->
     exists inner outer,
       ancestors = (inner ++ FunctionLikeAncestor f :: outer)%list /\
       forallb isOtherAncestor inner = true) /\
  (getFirstMemberWithParameters ancestors = None <->
   forallb isOtherAncestor ancestors = true).
Proof.
  induction ancestors as [|a ancestors [IHsome IHnone]].
  - split.
    + intros f. split; [discriminate|].
      intros (inner & outer & Heq & _). now destruct inner.
    + split; reflexivity.
  - destruct a as [g | kindName]; simpl.
    + assert (Hkind : isFunctionLikeKind (kind g) = true)
        by now destruct (kind g).
      rewrite Hkind. split.
      * intros f. split.
        -- intros Hf. injection Hf as <-. now exists [], ancestors.
        -- intros (inner & outer & Heq & Hinner).
           destruct inner as [|b inner]; simpl in Heq.
           ++ now injection Heq as ->.
           ++ injection Heq as <- _. discriminate Hinner.
      * split; discriminate.
    + split.
      * intros f. rewrite IHsome. split.
        -- intros (inner & outer & -> & Hinner).
           now exists (OtherAncestor kindName :: inner), outer.
        -- intros (inner & outer & Heq & Hinner).
           destruct inner as [|b inner]; simpl in Heq; [discriminate|].
           injection Heq as <- ->. now exists inner, outer.
      * exact IHnone.
Qed.

(** **** Return statements *)

(** X2. The lowering of a returned expression looks through any number
    of parentheses and non-null assertions: two expressions with the
    same core under them lower to the same return statement, and the
    core that is looked at is itself neither parenthesized nor
    asserted. *)
Theorem getReturnStrFromExpression_core {collab : Collaborators}
  (exp exp' : Expression) (func : option HasParameters) :
  (skipParentheses exp = skipParentheses exp' ->
   forall st,
     getReturnStrFromExpression exp func st
     = getReturnStrFromExpression exp' func st) /\
  skipParentheses (skipParentheses exp) = skipParentheses exp /\
  (forall inner ty,
     skipParentheses exp <> ParenthesizedExpression inner ty /\
     skipParentheses exp <> NonNullExpression inner ty).
Proof.
  split; [| split].
  - intros Hcore st. unfold getReturnStrFromExpression. now rewrite Hcore.
  - induction exp; simpl; auto.
  - intros inner0 ty0. induction exp; simpl; try (split; discriminate); auto.
Qed.

(** X3. Outside a function that returns a tuple (no enclosing function,
    or one whose return type is no tuple) a returned expression is
    lowered to one value and returned as it is; an array literal keeps
    its container and nothing goes through [unpack]. *)
Theorem getReturnStrFromExpression_single {collab : Collaborators}
  (exp : Expression) (func : option HasParameters)
  (st st' : CompilerState) (s : string) :
  (func = None \/ exists f, func = Some f /\ isTupleReturnType f = false) ->
  compileExpression (skipParentheses exp) st = Ok s st' ->
  getReturnStrFromExpression exp func st = Ok ("return " ++ s ++ ";") st'.
Proof.
  intros Hfunc Hc. unfold getReturnStrFromExpression.
  destruct Hfunc as [-> | (f & -> & ->)]; run; now rewrite Hc.
Qed.

(** X4. A return statement with an expression is lowered inside a buffer
    of its own: the statements that the lowering of the expression left
    in that buffer are emitted, in order, right before the line of the
    return, and the buffer is closed again. *)
Theorem compileReturnStatement_splices {collab : Collaborators}
  (node : ReturnStatementNode) (exp : Expression)
  (st st1 : CompilerState) (returnStr : string)
  (buffer : list string) (outer : list (list string)) :
  getExpression node = Some exp ->
  getReturnStrFromExpression exp
    (getFirstMemberWithParameters (getAncestors node)) (contextOpened st)
  = Ok returnStr st1 ->
  precedingStatementContexts st1 = buffer :: outer ->
  compileReturnStatement node st
  = Ok (String.concat EmptyString buffer ++ indent st1 ++ returnStr ++ JS.nl)
       (withContexts (fun _ => outer) st1).
Proof.
  intros Hexp Hret Hctx. unfold compileReturnStatement.
  rewrite Hexp. unfold enterPrecedingStatementContext,
    exitPrecedingStatementContextAndJoin. run.
  fold (contextOpened st). rewrite Hret, Hctx. reflexivity.
Qed.

Lemma getReturnStrFromExpression_single_witness :
  getReturnStrFromExpression (collab := Sample.collaborators)
    (ParenthesizedExpression Sample.pairLiteral Sample.pairType)
    None Sample.state0
  = Ok "return { a, b };" Sample.state0.
Proof.
  exact (@getReturnStrFromExpression_single Sample.collaborators
           (ParenthesizedExpression Sample.pairLiteral Sample.pairType)
           None Sample.state0 Sample.state0 "{ a, b }"
           (or_introl eq_refl) eq_refl).
Defined.

Lemma compileReturnStatement_splices_witness :
  compileReturnStatement (collab := Sample.collaborators)
    {| getExpression := Some Sample.pairLiteral;
       getAncestors := [OtherAncestor "Block";
                        FunctionLikeAncestor Sample.pairFunction] |}
    Sample.state0
  = Ok ("return a, b;" ++ JS.nl) Sample.state0.
Proof.
  exact (@compileReturnStatement_splices Sample.collaborators
           {| getExpression := Some Sample.pairLiteral;
              getAncestors := [OtherAncestor "Block";
                               FunctionLikeAncestor Sample.pairFunction] |}
           Sample.pairLiteral Sample.state0 (contextOpened Sample.state0)
           "return a, b;" [] [[]] eq_refl eq_refl eq_refl).
Defined.

(** **** Function bodies *)

(** X5. A body that is a single expression (the short form of an arrow
    function) becomes an implicit return, lowered by the same rule as a
    return statement of that function: after a line break come the
    initializers of the parameters, one per line at the indentation of
    the body, then the statements the expression left in its buffer,
    then the return line, and last the indentation of the closing
    [end]. *)
Theorem compileFunctionBody_expression {collab : Collaborators}
  (e : Expression) (node : HasParameters) (initializers : list string)
  (st st1 : CompilerState) (returnStr : string)
  (buffer : list string) (outer : list (list string)) :
  getReturnStrFromExpression e (Some node)
    (contextOpened (withIndent indented st))
  = Ok returnStr st1 ->
  precedingStatementContexts st1 = buffer :: outer ->
  compileFunctionBody (ExpressionBody e) node initializers st
  = Ok (JS.nl ++
        String.concat EmptyString
          (map (fun line => indented (indent st) ++ line ++ JS.nl)
               initializers) ++
        String.concat EmptyString buffer ++
        indent st1 ++ returnStr ++ JS.nl ++
        unindented (indent st1))
       (withIndent unindented (withContexts (fun _ => outer) st1)).
Proof.
  intros Hret Hctx.
  unfold compileFunctionBody, pushIndent, popIndent,
    enterPrecedingStatementContext, exitPrecedingStatementContextAndJoin,
    indentedLines. run.
  fold indented. fold (contextOpened (withIndent indented st)).
  rewrite Hret, Hctx. cbn [indent withIndent withContexts].
  rewrite indentedLines_from. cbn [append].
  unfold JS.join, unindented.
  rewrite ?JSFacts.append_assoc. reflexivity.
Qed.

Lemma compileFunctionBody_expression_witness :
  compileFunctionBody (collab := Sample.collaborators)
    (ExpressionBody Sample.pairLiteral) MoreSample.pairArrow
    ["if a == nil then a = 0 end"] Sample.state0
  = Ok (JS.nl ++ JS.tab ++ "if a == nil then a = 0 end" ++ JS.nl ++
        JS.tab ++ "return a, b;" ++ JS.nl)
       Sample.state0.
Proof.
  exact (@compileFunctionBody_expression Sample.collaborators
           Sample.pairLiteral MoreSample.pairArrow
           ["if a == nil then a = 0 end"] Sample.state0
           (contextOpened (withIndent indented Sample.state0))
           "return a, b;" [] [[]] eq_refl eq_refl).
Defined.

(** X6. A block body is lowered one level deeper than the function: a
    line break, the initializers of the parameters one per line at the
    indentation of the body, the lowered block, and the indentation of
    the closing [end], which is the indentation the block left behind
    less one level. *)
Theorem compileFunctionBody_block {collab : Collaborators}
  (statements : list Statement) (node : HasParameters)
  (initializers : list string) (st st1 : CompilerState) (block : string) :
  compileBlock statements (withIndent indented st) = Ok block st1 ->
  compileFunctionBody (BlockBody statements) node initializers st
  = Ok (JS.nl ++
        String.concat EmptyString
          (map (fun line => indented (indent st) ++ line ++ JS.nl)
               initializers) ++
        block ++ unindented (indent st1))
       (withIndent unindented st1).
Proof.
  intros Hblock.
  unfold compileFunctionBody, pushIndent, popIndent, indentedLines. run.
  fold indented. rewrite Hblock. cbn [indent withIndent].
  rewrite indentedLines_from. cbn [append].
  unfold unindented. rewrite ?JSFacts.append_assoc. reflexivity.
Qed.

Lemma compileFunctionBody_block_witness :
  compileFunctionBody (collab := Sample.collaborators)
    MoreSample.sumBody MoreSample.addNode
    ["if b == nil then b = 1 end"] Sample.state0
  = Ok (JS.nl ++ JS.tab ++ "if b == nil then b = 1 end" ++ JS.nl ++
        JS.tab ++ "return a + b;" ++ JS.nl)
       Sample.state0.
Proof.
  exact (@compileFunctionBody_block Sample.collaborators
           [OtherStatement "return a + b"] MoreSample.addNode
           ["if b == nil then b = 1 end"] Sample.state0
           (withIndent indented Sample.state0)
           (JS.tab ++ "return a + b;" ++ JS.nl) eq_refl).
Defined.

(** **** Functions *)

(** X7. A function that is no generator is emitted as one closure: the
    head (for a named function the indentation, [local] for a function
    declaration that is not hoisted, the name and [=]; then [TS.async(]
    for an async function), the parameter list (with the receiver for a
    method or an accessor), the body, and the tail ([end], the closing
    parenthesis of [TS.async], and [;] with a line break for a named
    function).  The frame of fresh names that was opened for the
    function is closed again. *)
Theorem compileFunction_closure {collab : Collaborators}
  (node : HasParameters) (name : string) (body : Body)
  (st st1 st2 : CompilerState) (data : ParameterData) (bodyStr : string) :
  isGeneratorFunction node = false ->
  getParameterData node false (withIdStack (cons 0) st) = Ok data st1 ->
  checkReturnsNonAny node = None ->
  compileFunctionBody body node (pushedInitializers data)
    (headerState node name st1)
  = Ok bodyStr st2 ->
  compileFunction node name body st
  = Ok (functionHead node name st1 ++
        "function(" ++ JS.join ", " (parameterNames node data) ++ ")" ++
        bodyStr ++ functionTail node name)
       (withIdStack (@tl nat) st2).
Proof.
  intros Hgen Hdata Hcheck Hbody.
  unfold compileFunction, pushIdStack, popIdStack, pushHoistStack. run.
  rewrite Hdata, Hcheck, Hgen.
  unfold headerState, functionHead, functionTail, declarationPrefix,
    hoisted, parameterNames in *.
  destruct (kind node) eqn:Hkind;
    unfold wrapsAsync, isMethodLike in *; rewrite Hkind in *.
  all: destruct (isAsync node); destruct (String.eqb name EmptyString);
    try destruct (getNameNode node) as [nameNode|];
    try destruct (shouldHoist node nameNode);
    cbn -[JS.join append JS.tab JS.nl] in *;
    rewrite Hbody; cbn -[JS.join append JS.tab JS.nl];
    f_equal; rewrite ?JSFacts.append_assoc; reflexivity.
Qed.

Lemma compileFunction_closure_witness :
  compileFunction (collab := Sample.collaborators)
    MoreSample.addNode "add" MoreSample.sumBody Sample.state0
  = Ok ("local add = function(a, b)" ++ JS.nl ++
        JS.tab ++ "return a + b;" ++ JS.nl ++
        "end;" ++ JS.nl)
       Sample.state0.
Proof.
  exact (@compileFunction_closure Sample.collaborators
           MoreSample.addNode "add" MoreSample.sumBody
           Sample.state0 _ _ _ _
           eq_refl eq_refl eq_refl eq_refl).
Defined.

(** X8. The two checks of [compileFunction] come before any text is
    produced.  A function whose return type the any-check rejects is
    refused right after its parameters were read: its name is not
    registered for hoisting.  A generator whose return type the
    iterator check rejects is refused before its body is lowered. *)
Theorem compileFunction_checks {collab : Collaborators}
  (node : HasParameters) (name : string) (body : Body)
  (st st1 : CompilerState) (data : ParameterData) (err : CompilerError) :
  getParameterData node false (withIdStack (cons 0) st) = Ok data st1 ->
  (checkReturnsNonAny node = Some err ->
   compileFunction node name body st = Throw (CompilerErrorExn err) st1) /\
  (checkReturnsNonAny node = None ->
   isGeneratorFunction node = true ->
   isIterableIterator (getReturnType node) node = Some err ->
   compileFunction node name body st
   = Throw (CompilerErrorExn err) (headerState node name st1)).
Proof.
  intros Hdata. split.
  - intros Hcheck. unfold compileFunction, pushIdStack. run.
    now rewrite Hdata, Hcheck.
  - intros Hcheck Hgen Hiter.
    unfold compileFunction, pushIdStack, pushHoistStack. run.
    rewrite Hdata, Hcheck, Hgen, Hiter.
    unfold headerState, hoisted.
    destruct (kind node) eqn:Hkind;
      try (unfold isGeneratorFunction in Hgen; rewrite Hkind in Hgen;
           discriminate Hgen);
      unfold wrapsAsync; rewrite Hkind;
      destruct (isAsync node);
      try destruct (getNameNode node) as [nameNode|];
      try destruct (shouldHoist node nameNode);
      reflexivity.
Qed.

Lemma compileFunction_checks_witness :
  compileFunction (collab := MoreSample.strictCollaborators)
    Sample.generatorNode "count" Sample.generatorBody Sample.state0
  = Throw (CompilerErrorExn MoreSample.iteratorError)
      (withIdStack (cons 0) Sample.state0).
Proof.
  exact (proj2 (@compileFunction_checks MoreSample.strictCollaborators
                  Sample.generatorNode "count" Sample.generatorBody
                  Sample.state0 _ _ MoreSample.iteratorError eq_refl)
           eq_refl eq_refl eq_refl).
Defined.

(** **** Constructors *)

(** X9. The order of the text of a declared constructor without return
    statement: the head with [self] and the parameters, the default
    values of the parameters, the call of the super constructor when it
    is the first statement of the body, the initializers of the
    parameters, the extra initializers, the other statements of the
    body, [return self;] and [end;].  The call of the super constructor
    thus runs before any initializer, and the initializers before the
    rest of the body. *)
Theorem compileConstructorDeclaration_order {collab : Collaborators}
  (className : string) (node : HasParameters)
  (extraInitializers : option (list string)) (hasSuper : bool)
  (st st1 : CompilerState) (data : ParameterData) :
  getParameterData node true (withIdStack (cons 0) st) = Ok data st1 ->
  let head :=
    indent st1 ++ className ++ ".constructor = function(" ++
    JS.join ", " ("self" :: pushedNames data) ++ ")" ++ JS.nl ++
    indentedLines (indented (indent st1)) (pushedDefaults data) in
  (forall first others st2 st3 superStr restStr,
     containsSuperExpression (Some first) = true ->
     compileStatement first (withIndent indented st1) = Ok superStr st2 ->
     compileStatements others st2 = Ok restStr st3 ->
     getReturnStatement (first :: others) = None ->
     compileConstructorDeclaration className
       (Some (node, Some (BlockBody (first :: others))))
       extraInitializers hasSuper st
     = Ok (head ++ superStr ++
           indentedLines (indent st2) (pushedInitializers data) ++
           extraLines extraInitializers ++ restStr ++
           indent st3 ++ "return self;" ++ JS.nl ++
           unindented (indent st3) ++ "end;" ++ JS.nl)
          (withIdStack (@tl nat) (withIndent unindented st3))) /\
  (forall statements st3 restStr,
     containsSuperExpression (hd_error statements) = false ->
     compileStatements statements (withIndent indented st1) = Ok restStr st3 ->
     getReturnStatement statements = None ->
     compileConstructorDeclaration className
       (Some (node, Some (BlockBody statements)))
       extraInitializers hasSuper st
     = Ok (head ++
           indentedLines (indented (indent st1)) (pushedInitializers data) ++
           extraLines extraInitializers ++ restStr ++
           indent st3 ++ "return self;" ++ JS.nl ++
           unindented (indent st3) ++ "end;" ++ JS.nl)
          (withIdStack (@tl nat) (withIndent unindented st3))).
Proof.
  intros Hdata head. split.
  - intros first others st2 st3 superStr restStr Hsuper Hfirst Hrest Hreturn.
    unfold compileConstructorDeclaration, pushIdStack, pushIndent,
      popIndent, popIdStack. run.
    rewrite Hdata. cbn [hd_error tl]. rewrite Hsuper.
    fold indented. rewrite Hfirst, Hrest, Hreturn.
    unfold head, extraLines, unindented.
    destruct extraInitializers; cbn -[JS.join append JS.tab JS.nl];
      f_equal; rewrite ?JSFacts.append_assoc; reflexivity.
  - intros statements st3 restStr Hsuper Hrest Hreturn.
    unfold compileConstructorDeclaration, pushIdStack, pushIndent,
      popIndent, popIdStack. run.
    rewrite Hdata, Hsuper. fold indented. rewrite Hrest, Hreturn.
    unfold head, extraLines, unindented.
    destruct extraInitializers; cbn -[JS.join append JS.tab JS.nl];
      f_equal; rewrite ?JSFacts.append_assoc; reflexivity.
Qed.

Lemma compileConstructorDeclaration_order_witness :
  compileConstructorDeclaration (collab := Sample.collaborators) "Point"
    (Some (Sample.constructorNode,
           Some (BlockBody [MoreSample.superCall;
                            OtherStatement "self.x = a"])))
    (Some [JS.tab ++ "self.y = 0;" ++ JS.nl]) false Sample.state0
  = Ok ("Point.constructor = function(self, a)" ++ JS.nl ++
        JS.tab ++ "super(a);" ++ JS.nl ++
        JS.tab ++ "self.y = 0;" ++ JS.nl ++
        JS.tab ++ "self.x = a;" ++ JS.nl ++
        JS.tab ++ "return self;" ++ JS.nl ++
        "end;" ++ JS.nl)
       Sample.state0.
Proof.
  exact (proj1 (@compileConstructorDeclaration_order Sample.collaborators
                  "Point" Sample.constructorNode
                  (Some [JS.tab ++ "self.y = 0;" ++ JS.nl]) false
                  Sample.state0 _ _ eq_refl)
           MoreSample.superCall [OtherStatement "self.x = a"]
           _ _ _ _ eq_refl eq_refl eq_refl eq_refl).
Defined.

(** X10. A class that declares no constructor gets one that takes
    [self] and all other arguments: it passes them to the constructor of
    the super class when there is one, runs the extra initializers and
    returns [self].  When the indentation is a run of tabs the lowering
    context is left exactly as it was found. *)
Theorem compileConstructorDeclaration_default {collab : Collaborators}
  (className : string) (extraInitializers : option (list string))
  (hasSuper : bool) (st : CompilerState) :
  allTabs (indent st) = true ->
  compileConstructorDeclaration className None extraInitializers hasSuper st
  = Ok (indent st ++ className ++ ".constructor = function(self, ...)" ++
        JS.nl ++
        (if hasSuper
         then indented (indent st) ++ "super.constructor(self, ...);" ++ JS.nl
         else EmptyString) ++
        extraLines extraInitializers ++
        indented (indent st) ++ "return self;" ++ JS.nl ++
        indent st ++ "end;" ++ JS.nl)
       st.
Proof.
  intros Htabs.
  unfold compileConstructorDeclaration, pushIdStack, pushIndent,
    popIndent, popIdStack. run.
  pose proof (unindented_indented _ Htabs) as Hback.
  unfold unindented, indented in Hback.
  f_equal.
  - cbn -[append JS.tab JS.nl JS.substr String.length].
    rewrite Hback. unfold extraLines, indented.
    destruct extraInitializers; destruct hasSuper;
      cbn -[JS.tab JS.nl]; rewrite ?JSFacts.append_assoc;
      cbn -[JS.tab JS.nl]; rewrite ?JSFacts.append_assoc; reflexivity.
  - destruct st as [ind ids contexts hoist library].
    unfold withIdStack, withIndent.
    cbn -[append JS.tab JS.substr String.length] in *.
    now rewrite Hback.
Qed.

Lemma compileConstructorDeclaration_default_witness :
  compileConstructorDeclaration (collab := Sample.collaborators)
    "Point" None None true Sample.state0
  = Ok ("Point.constructor = function(self, ...)" ++ JS.nl ++
        JS.tab ++ "super.constructor(self, ...);" ++ JS.nl ++
        JS.tab ++ "return self;" ++ JS.nl ++
        "end;" ++ JS.nl)
       Sample.state0.
Proof.
  exact (@compileConstructorDeclaration_default Sample.collaborators
           "Point" None true Sample.state0 eq_refl).
Defined.

(** **** Declarations and function expressions *)

(** A reserved name stops a declaration at once: the function
    declaration and the method declaration throw the error of the name
    check before anything is registered for export or lowered, and the
    lowering context is untouched. *)
Theorem reserved_name_rejected {collab : Collaborators} {registry : Registry}
  (node : HasParameters) (name : string) (err : CompilerError)
  (body : option Body) (st : CompilerState) :
  (getName node = Some name ->
   checkReserved name (FunctionLikeNode node) true = Some err ->
   compileFunctionDeclaration node body st
   = Throw (CompilerErrorExn err) st) /\
  (checkReserved name (FunctionLikeNode node) false = Some err ->
   compileMethodDeclaration node name body st
   = Throw (CompilerErrorExn err) st).
Proof.
  split.
  - intros Hname Hcheck. unfold compileFunctionDeclaration. run.
    now rewrite Hname, Hcheck.
  - intros Hcheck. unfold compileMethodDeclaration. run.
    now rewrite Hcheck.
Qed.

(** X11. A function declaration without a name (a default export) is
    given a fresh name of the shape of a synthetic temporary; that name
    is registered for export and the function is emitted under it.  A
    declaration without a body (an overload or an ambient declaration)
    emits nothing and registers nothing. *)
Theorem compileFunctionDeclaration_unnamed
  {collab : Collaborators} {registry : Registry}
  (node : HasParameters) (st : CompilerState) :
  (forall top rest body st1,
     getName node = None ->
     idStack st = top :: rest ->
     let id := "_" ++ JS.natToString (list_sum (top :: rest)) in
     pushExport id node (withIdStack (fun _ => S top :: rest) st)
     = Ok tt st1 ->
     JS.matchesTempId id = true /\
     compileFunctionDeclaration node (Some body) st
     = compileFunction node id body st1) /\
  (forall name,
     getName node = Some name ->
     checkReserved name (FunctionLikeNode node) true = None ->
     compileFunctionDeclaration node None st = Ok EmptyString st).
Proof.
  split.
  - intros top rest body st1 Hname Hids id Hexport.
    split; [apply JSFacts.matchesTempId_fresh|].
    unfold compileFunctionDeclaration, getNewId. run.
    rewrite Hname, Hids. fold id. now rewrite Hexport.
  - intros name Hname Hcheck. unfold compileFunctionDeclaration. run.
    now rewrite Hname, Hcheck.
Qed.

Lemma compileFunctionDeclaration_unnamed_witness :
  compileFunctionDeclaration
    (collab := Sample.collaborators) (registry := MoreSample.registry)
    MoreSample.anonymousDeclaration (Some MoreSample.sumBody) Sample.state0
  = Ok ("local _0 = function(a, b)" ++ JS.nl ++
        JS.tab ++ "return a + b;" ++ JS.nl ++
        "end;" ++ JS.nl)
       (withIdStack (fun _ => [1]) Sample.state0) /\
  compileFunctionDeclaration
    (collab := Sample.collaborators) (registry := MoreSample.registry)
    MoreSample.addNode None Sample.state0
  = Ok EmptyString Sample.state0.
Proof.
  split.
  - rewrite (proj2 (proj1 (@compileFunctionDeclaration_unnamed
                             Sample.collaborators MoreSample.registry
                             MoreSample.anonymousDeclaration Sample.state0)
                      0 [] MoreSample.sumBody _ eq_refl eq_refl eq_refl)).
    reflexivity.
  - exact (proj2 (@compileFunctionDeclaration_unnamed
                    Sample.collaborators MoreSample.registry
                    MoreSample.addNode Sample.state0)
             "add" eq_refl eq_refl).
Defined.

Lemma reserved_name_rejected_witness :
  let strict : Registry :=
    {| checkReserved := fun name node _ =>
         if String.eqb name "end"
         then Some {| message := "reserved";
                      errorNode := node;
                      errorType := OtherErrorType "ReservedKeyword" |}
         else None;
       pushExport := fun _ _ => ret tt;
       pushPrecedingStatementToNewIds := fun _ _ _ => ret [] |} in
  compileMethodDeclaration
    (collab := Sample.collaborators) (registry := strict)
    Sample.methodPlain "end" (Some (BlockBody [])) Sample.state0
  = Throw (CompilerErrorExn
             {| message := "reserved";
                errorNode := FunctionLikeNode Sample.methodPlain;
                errorType := OtherErrorType "ReservedKeyword" |})
      Sample.state0.
Proof.
  intros strict.
  exact (proj2 (@reserved_name_rejected Sample.collaborators strict
                  Sample.methodPlain "end" _ (Some (BlockBody []))
                  Sample.state0)
           eq_refl).
Defined.



End FunctionFacts.

(* ===================================================================== *)
(** ** Further properties of [indexed.ts] *)
(* ===================================================================== *)

Module IndexedFacts.

Import Compiler Shapes MoreShapes.

Ltac run :=
  unfold bind, ret, gets, modify, liftCheck, throwCompilerError, throw.

(** **** Readable and writable names *)

(** An extraction never leaves the lowering context as it was: it
    throws, or it advances the counter of fresh names. *)
Lemma extraction_changes_state (n : Node) (source result : string)
  (st : CompilerState) :
  pushPrecedingStatementToNextId n source st <> Ok result st.
Proof.
  unfold pushPrecedingStatementToNextId, getNewId, pushPrecedingStatements.
  run. destruct (idStack st) as [|top rest] eqn:Hids; [discriminate|].
  cbn [precedingStatementContexts withIdStack indent].
  destruct (precedingStatementContexts st) as [|buffer outer];
    [discriminate|].
  intros Heq. injection Heq as _ Hst.
  apply (f_equal idStack) in Hst. simpl in Hst. rewrite Hids in Hst.
  injection Hst as Hst. now apply Nat.neq_succ_diag_l in Hst.
Qed.

(** X13. For an expression that is no identifier,
    [getReadableExpressionName] hands the text back with the lowering
    context untouched exactly when the text is an underscore followed
    by one or more decimal digits and nothing else. *)
Theorem getReadableExpressionName_unchanged_iff
  (exp : Expression) (expStr : string) (st : CompilerState) :
  (forall id, exp <> Identifier id) ->
  (getReadableExpressionName exp expStr st = Ok expStr st <->
   exists digits,
     digits <> EmptyString /\ JS.allDigits digits = true /\
     expStr = "_" ++ digits).
Proof.
  intros Hexp. rewrite <- JSFacts.matchesTempId_iff.
  unfold getReadableExpressionName.
  destruct (JS.matchesTempId expStr); simpl.
  - split; reflexivity.
  - assert (match exp with
            | Identifier id => negb (isIdentifierDefinedInExportLet id)
            | _ => false
            end = false) as ->.
    { destruct exp; try reflexivity. now contradiction (Hexp id). }
    split; [| discriminate].
    intros Heq. now apply extraction_changes_state in Heq.
Qed.

Lemma getReadableExpressionName_unchanged_iff_witness :
  getReadableExpressionName Sample.pairCall "_12" Sample.state0
  = Ok "_12" Sample.state0 /\
  getReadableExpressionName Sample.pairCall "_1x" Sample.state0
  <> Ok "_1x" Sample.state0.
Proof.
  split.
  - apply (proj2 (getReadableExpressionName_unchanged_iff
                    Sample.pairCall "_12" Sample.state0
                    ltac:(discriminate))).
    exists "12". repeat split. discriminate.
  - intros Heq.
    apply (proj1 (getReadableExpressionName_unchanged_iff
                    Sample.pairCall "_1x" Sample.state0
                    ltac:(discriminate))) in Heq.
    destruct Heq as (digits & _ & Hdigits & Heq).
    injection Heq as <-. discriminate Hdigits.
Defined.

(** X14. An identifier whose text is no synthetic temporary is handed
    back untouched exactly when none of its definition sites has an
    exported [let] as the nearest variable statement above it.  So an
    identifier all of whose sites lie under a [const], a [var], a [let]
    that is not exported, or under no variable statement at all, is not
    extracted; one with a site under an exported [let] is, be that site
    the variable the statement declares or a parameter in its
    initializer. *)
Theorem getReadableExpressionName_identifier
  (id : IdentifierNode) (expStr : string) (st : CompilerState) :
  JS.matchesTempId expStr = false ->
  (getReadableExpressionName (Identifier id) expStr st = Ok expStr st <->
   ~ HasExportLetSite id).
Proof.
  intros Hm. unfold getReadableExpressionName. rewrite Hm. simpl.
  rewrite <- CompilerFacts.isIdentifierDefinedInExportLet_false.
  destruct (isIdentifierDefinedInExportLet id); simpl.
  - split; [| discriminate].
    intros Heq. now apply extraction_changes_state in Heq.
  - split; reflexivity.
Qed.

Lemma getReadableExpressionName_identifier_witness :
  getReadableExpressionName (Sample.var "x" Sample.numberType) "x"
    Sample.state0
  = Ok "x" Sample.state0 /\
  getReadableExpressionName (Sample.exportedLet "x" Sample.numberType) "x"
    Sample.state0
  <> Ok "x" Sample.state0 /\
  getReadableExpressionName (Identifier MoreSample.parameterUnderExportLet)
    "p" Sample.state0
  <> Ok "p" Sample.state0.
Proof.
  split; [| split].
  - apply (proj2 (getReadableExpressionName_identifier
                    (Sample.ident "x" Sample.numberType) "x"
                    Sample.state0 eq_refl)).
    intros (def & [] & _).
  - intros Heq.
    apply (proj1 (getReadableExpressionName_identifier _ "x"
                    Sample.state0 eq_refl)) in Heq.
    apply Heq. eexists. split; [left; reflexivity|].
    eexists. split; [reflexivity|]. split; reflexivity.
  - intros Heq.
    apply (proj1 (getReadableExpressionName_identifier _ "p"
                    Sample.state0 eq_refl)) in Heq.
    apply Heq. eexists. split; [left; reflexivity|].
    eexists. split; [reflexivity|]. split; reflexivity.
Defined.

(** X15. The writable name of an operand.  A member access whose base
    is itself a member access, as [a.b.c], or an identifier with a
    definition site that has an exported [let] as the nearest variable
    statement above it, has its base extracted into a fresh local, and
    the name is that local followed by the last member: only the base
    is cached, the member is still written through.  Any other operand,
    an identifier or a member of an identifier without such a site
    among them, is lowered as it is and nothing is extracted by this
    function. *)
Theorem getWritableOperandName_depth {collab : Collaborators}
  (operand : Expression) (st : CompilerState) :
  (forall child nameNode ty opExpStr st1 top rest buffer outer,
     operand = PropertyAccessExpression child nameNode ty ->
     (isPropertyAccessExpression child = true \/
      exists id, child = Identifier id /\ HasExportLetSite id) ->
     compileExpression child st = Ok opExpStr st1 ->
     idStack st1 = top :: rest ->
     precedingStatementContexts st1 = buffer :: outer ->
     let newId := "_" ++ JS.natToString (list_sum (top :: rest)) in
     getWritableOperandName operand st
     = Ok (newId ++ "." ++ identText nameNode)
          (extracted st1 newId opExpStr top rest buffer outer)) /\
  ((forall child nameNode ty,
      operand = PropertyAccessExpression child nameNode ty ->
      isPropertyAccessExpression child = false /\
      forall id, child = Identifier id -> ~ HasExportLetSite id) ->
   getWritableOperandName operand st = compileExpression operand st).
Proof.
  split.
  - intros child nameNode ty opExpStr st1 top rest buffer outer
           -> Hdeep Hchild Hids Hctx newId.
    unfold getWritableOperandName.
    assert (isPropertyAccessExpression child ||
            match child with
            | Identifier id => isIdentifierDefinedInExportLet id
            | _ => false
            end = true) as ->.
    { destruct Hdeep as [-> | (id & -> & Hsite)]; [reflexivity|].
      apply CompilerFacts.isIdentifierDefinedInExportLet_iff in Hsite.
      rewrite Hsite. apply orb_true_r. }
    unfold pushPrecedingStatementToNextId, getNewId, pushPrecedingStatements.
    run. rewrite Hchild, Hids. simpl. rewrite Hctx. reflexivity.
  - intros Hshallow. unfold getWritableOperandName.
    destruct operand as [ | | | | | |child nameNode ty | | | | ];
      try reflexivity.
    destruct (Hshallow child nameNode ty eq_refl) as [-> Hid].
    destruct child; try reflexivity.
    simpl.
    now rewrite (proj2 (CompilerFacts.isIdentifierDefinedInExportLet_false id)
                   (Hid id eq_refl)).
Qed.

Lemma getWritableOperandName_depth_witness :
  getWritableOperandName (collab := Sample.collaborators)
    MoreSample.fooBarI Sample.state0
  = Ok "_0.i" (extracted Sample.state0 "_0" "Foo.Bar" 0 [] [] []) /\
  getWritableOperandName (collab := Sample.collaborators)
    MoreSample.fooBar Sample.state0
  = Ok "Foo.Bar" Sample.state0.
Proof.
  split.
  - exact (proj1 (@getWritableOperandName_depth Sample.collaborators
                    MoreSample.fooBarI Sample.state0)
             MoreSample.fooBar (Sample.ident "i" Sample.numberType)
             Sample.numberType "Foo.Bar" Sample.state0 0 [] [] []
             eq_refl (or_introl eq_refl) eq_refl eq_refl eq_refl).
  - rewrite (proj2 (@getWritableOperandName_depth Sample.collaborators
                      MoreSample.fooBar Sample.state0)).
    + reflexivity.
    + intros child nameNode ty Heq. injection Heq as <- _ _.
      split; [reflexivity|]. intros id Hid. injection Hid as <-.
      intros (def & [] & _).
Defined.

(** **** Property access *)

(** X16. The member [length] of a string or of an array is the length
    operator of the target applied to the lowered base.  It is settled
    before any check: neither the access check nor the any-check is
    consulted. *)
Theorem compilePropertyAccessExpression_length {collab : Collaborators}
  (exp : Expression) (nameNode : IdentifierNode) (ty : TsType)
  (st st1 st2 : CompilerState) (expStr : string)
  (macro : PropertyCallExpType) :
  compileExpression exp st = Ok expStr st1 ->
  getPropertyAccessExpressionType
    (PropertyAccessExpression exp nameNode ty) st1 = Ok macro st2 ->
  macro = PropertyString \/ macro = PropertyArray ->
  identText nameNode = "length" ->
  compilePropertyAccessExpression exp nameNode ty st
  = Ok ("(#" ++ expStr ++ ")") st2.
Proof.
  intros Hexp Htype Hmacro Hname.
  unfold compilePropertyAccessExpression. run.
  rewrite Hexp, Htype, Hname.
  destruct Hmacro as [-> | ->]; reflexivity.
Qed.

Lemma compilePropertyAccessExpression_length_witness :
  compilePropertyAccessExpression (collab := Sample.collaborators)
    Sample.arr (Sample.ident "length" Sample.numberType) Sample.numberType
    Sample.state0
  = Ok "(#arr)" Sample.state0.
Proof.
  exact (@compilePropertyAccessExpression_length Sample.collaborators
           Sample.arr (Sample.ident "length" Sample.numberType)
           Sample.numberType Sample.state0 Sample.state0 Sample.state0
           "arr" PropertyArray eq_refl eq_refl (or_intror eq_refl) eq_refl).
Defined.

(** X17. A member read through [super] goes through the getters of the
    base class: the emitted expression calls the getter registered
    under that name when there is one and reads the field of [self]
    otherwise.  The lowered text of [super] itself is not used, and the
    symbol of the base is not looked at for functions, enumerations or
    classes. *)
Theorem compilePropertyAccessExpression_super {collab : Collaborators}
  (superType : TsType) (nameNode : IdentifierNode) (ty : TsType)
  (st st1 st2 st3 : CompilerState) (expStr : string) (baseClass : Symbol) :
  let exp := SuperExpression superType in
  compileExpression exp st = Ok expStr st1 ->
  getPropertyAccessExpressionType
    (PropertyAccessExpression exp nameNode ty) st1 = Ok PropertyNone st2 ->
  checkApiAccess nameNode st2 = Ok tt st3 ->
  checkNonAny (ExpressionNode exp) = None ->
  checkNonAny (IdentifierNameNode nameNode) = None ->
  getSymbol superType = Some baseClass ->
  let getter :=
    safeLuaIndex (symbolName baseClass ++ "._getters") (identText nameNode) in
  let field := safeLuaIndex "self" (identText nameNode) in
  compilePropertyAccessExpression exp nameNode ty st
  = Ok ("(" ++ getter ++ " and function(self) return " ++ getter ++
        "(self) end or function() return " ++ field ++ " end)(self)") st3.
Proof.
  intros exp Hexp Htype Hapi Hc1 Hc2 Hsym getter field.
  unfold compilePropertyAccessExpression. run.
  rewrite Hexp, Htype. cbn [PropertyCallExpType_eqb orb andb negb].
  rewrite Hapi, Hc1, Hc2. unfold exp. cbn [isSuperExpression getType].
  now rewrite Hsym.
Qed.

Lemma compilePropertyAccessExpression_super_witness :
  compilePropertyAccessExpression (collab := Sample.collaborators)
    (SuperExpression Sample.pointClass)
    (Sample.ident "x" Sample.numberType) Sample.numberType Sample.state0
  = Ok ("(Point._getters.x and function(self) return Point._getters.x" ++
        "(self) end or function() return self.x end)(self)")
       Sample.state0.
Proof.
  exact (@compilePropertyAccessExpression_super Sample.collaborators
           Sample.pointClass (Sample.ident "x" Sample.numberType)
           Sample.numberType Sample.state0 Sample.state0 Sample.state0
           Sample.state0 "super" _
           eq_refl eq_refl eq_refl eq_refl eq_refl eq_refl).
Defined.

(** X18. Everything else is a plain field access on the lowered base:
    a base whose type has no symbol or no value declaration, a member
    of an enumeration that is not constant (it is never folded), a
    member of a constant enumeration whose value is neither a number
    nor a string, a member of a class other than [prototype], and a
    member of any other kind of declaration. *)
Theorem compilePropertyAccessExpression_plain {collab : Collaborators}
  (exp : Expression) (nameNode : IdentifierNode) (ty : TsType)
  (st st3 : CompilerState) (expStr : string) :
  OrdinaryAccess exp nameNode ty st expStr st3 ->
  valueDeclarationOf exp = None \/
  (exists members,
     valueDeclarationOf exp = Some (EnumDeclarationDecl false members)) \/
  (exists members,
     valueDeclarationOf exp = Some (EnumDeclarationDecl true members) /\
     getMember members (identText nameNode) = Some EnumUndefined) \/
  (valueDeclarationOf exp = Some ClassDeclarationDecl /\
   identText nameNode <> "prototype") \/
  (exists kindName, valueDeclarationOf exp = Some (OtherDecl kindName)) ->
  compilePropertyAccessExpression exp nameNode ty st
  = Ok (expStr ++ "." ++ identText nameNode) st3.
Proof.
  intros Hplain Hcase.
  destruct Hcase as [Hnone | Hsome].
  - destruct Hplain as (st1 & st2 & Hexp & Htype & Hapi & Hc1 & Hc2 & Hsuper).
    unfold compilePropertyAccessExpression. run.
    rewrite Hexp, Htype. cbn [PropertyCallExpType_eqb orb andb negb].
    rewrite Hapi, Hc1, Hc2, Hsuper.
    unfold valueDeclarationOf in Hnone.
    destruct (getSymbol (getType exp)) as [symbol|]; [| reflexivity].
    now rewrite Hnone.
  - destruct Hsome as [(members & Hdec) | [(members & Hdec & Hmember) |
                       [(Hdec & Hname) | (kindName & Hdec)]]];
      rewrite (CompilerFacts.compilePropertyAccessExpression_symbol
                 exp nameNode ty st st3 expStr _ Hplain Hdec); cbv zeta.
    + reflexivity.
    + now rewrite Hmember.
    + apply String.eqb_neq in Hname. now rewrite Hname.
    + reflexivity.
Qed.

Lemma compilePropertyAccessExpression_plain_witness :
  compilePropertyAccessExpression (collab := Sample.collaborators)
    (Sample.var "Direction" MoreSample.plainEnum)
    (Sample.ident "Up" Sample.numberType) Sample.numberType Sample.state0
  = Ok "Direction.Up" Sample.state0.
Proof.
  refine (@compilePropertyAccessExpression_plain Sample.collaborators
            (Sample.var "Direction" MoreSample.plainEnum)
            (Sample.ident "Up" Sample.numberType) Sample.numberType
            Sample.state0 Sample.state0 "Direction"
            (CompilerFacts.sample_ordinary_access
               (Sample.var "Direction" MoreSample.plainEnum) "Up"
               eq_refl eq_refl)
            (or_intror (or_introl _))).
  eexists. reflexivity.
Defined.

(** **** Element access *)

(** X19. An index whose static type is not numeric gets no offset: it
    is lowered as an expression and used as it is, whatever the base
    (a base that is no call of a tuple-returning function). *)
Theorem compileElementAccessExpression_key {collab : Collaborators}
  (expNode argExp : Expression) (st st1 st2 : CompilerState)
  (compiled base : string) :
  isNumberType (getType argExp) = false ->
  isFoldableLiteral argExp = false ->
  isCallExpression expNode && isTupleReturnTypeCall expNode = false ->
  compileExpression argExp st = Ok compiled st1 ->
  compileExpression expNode st1 = Ok base st2 ->
  checkNonAny (ExpressionNode expNode) = None ->
  checkNonAny (ExpressionNode argExp) = None ->
  compileElementAccessExpression expNode argExp st
  = Ok (indexedBase expNode base ++ "[" ++ compiled ++ "]") st2.
Proof.
  intros Hnum Hfold Hcall Hidx Hbase Hc1 Hc2.
  unfold compileElementAccessExpression, indexedBase.
  rewrite Hnum, Hfold, Hcall. run. rewrite Hidx, Hbase, Hc1, Hc2. run.
  destruct expNode; simpl;
    try match goal with |- context [if ?b then (fun _ => _) else _] =>
      destruct b end;
    simpl; rewrite ?JSFacts.append_assoc;
    rewrite ?FunctionFacts.append_nil_r; reflexivity.
Qed.

Lemma compileElementAccessExpression_key_witness :
  compileElementAccessExpression (collab := Sample.collaborators)
    (Sample.var "map" MoreSample.recordType)
    (Sample.var "key" MoreSample.stringType) Sample.state0
  = Ok "map[key]" Sample.state0.
Proof.
  exact (@compileElementAccessExpression_key Sample.collaborators
           (Sample.var "map" MoreSample.recordType)
           (Sample.var "key" MoreSample.stringType)
           Sample.state0 Sample.state0 Sample.state0 "key" "map"
           eq_refl eq_refl eq_refl eq_refl eq_refl eq_refl eq_refl).
Defined.

(** X20. A call whose declared return type is an array is indexed like
    an array even when it returns no tuple: a numeric index gets the
    offset of one, and the access is a plain indexing of the lowered
    call, not a selection. *)
Theorem compileElementAccessExpression_array_call {collab : Collaborators}
  (expNode argExp : Expression) (st st1 st2 : CompilerState)
  (idx text : string) :
  isCallExpression expNode = true ->
  isTupleReturnTypeCall expNode = false ->
  isArrayType (callReturnType expNode) = true ->
  isNumberType (getType argExp) = true ->
  IndexPlusOne argExp st idx st1 ->
  compileExpression expNode st1 = Ok text st2 ->
  checkNonAny (ExpressionNode expNode) = None ->
  checkNonAny (ExpressionNode argExp) = None ->
  compileElementAccessExpression expNode argExp st
  = Ok (text ++ "[" ++ idx ++ "]") st2.
Proof.
  intros Hcall Htuple Hret Hnum Hidx Hcompile Hc1 Hc2.
  unfold compileElementAccessExpression.
  rewrite Hnum, Hcall, Htuple, Hret. cbn [orb andb].
  assert (Hadd : (if isArrayType (getType expNode) then true else true) = true)
    by now destruct (isArrayType (getType expNode)).
  rewrite Hadd.
  destruct Hidx as [(Hf & lit & Hlit & ->) | (Hf & c & Hc & ->)];
    rewrite Hf; run; [rewrite Hlit | rewrite Hc];
    rewrite Hcompile, Hc1, Hc2; run;
    destruct expNode; try discriminate Hcall; reflexivity.
Qed.

Lemma compileElementAccessExpression_array_call_witness :
  compileElementAccessExpression (collab := Sample.collaborators)
    MoreSample.arrayCall Sample.i Sample.state0
  = Ok "list()[i + 1]" Sample.state0.
Proof.
  refine (@compileElementAccessExpression_array_call Sample.collaborators
            MoreSample.arrayCall Sample.i
            Sample.state0 Sample.state0 Sample.state0 "i + 1" "list()"
            eq_refl eq_refl eq_refl eq_refl _ eq_refl eq_refl eq_refl).
  right. split; [reflexivity|]. exists "i". split; reflexivity.
Defined.

(** X21. On a base that is neither an array nor a call, a numeric
    literal without the letter [e] is not incremented, yet it is still
    read as a number and printed back: the emitted index is the
    spelling the host gives the value, not the text of the source. *)
Theorem compileElementAccessExpression_literal_key {collab : Collaborators}
  (expNode argExp : Expression) (st st1 st2 : CompilerState)
  (literal base : string) :
  isArrayType (getType expNode) = false ->
  isCallExpression expNode = false ->
  isFoldableLiteral argExp = true ->
  compileNumericLiteral argExp st = Ok literal st1 ->
  compileExpression expNode st1 = Ok base st2 ->
  checkNonAny (ExpressionNode expNode) = None ->
  checkNonAny (ExpressionNode argExp) = None ->
  compileElementAccessExpression expNode argExp st
  = Ok (indexedBase expNode base ++ "[" ++
        numberToString (toNumber literal) ++ "]") st2.
Proof.
  intros Harr Hcall Hfold Hlit Hbase Hc1 Hc2.
  unfold compileElementAccessExpression, indexedBase.
  rewrite Harr, Hcall, Hfold. cbn [andb].
  assert (Hadd : (if isNumberType (getType argExp) then false else false)
                 = false)
    by now destruct (isNumberType (getType argExp)).
  rewrite Hadd. run. rewrite Hlit, Hbase, Hc1, Hc2. run.
  destruct expNode; simpl;
    try match goal with |- context [if ?b then (fun _ => _) else _] =>
      destruct b end;
    simpl; rewrite ?JSFacts.append_assoc; reflexivity.
Qed.

Lemma compileElementAccessExpression_literal_key_witness :
  compileElementAccessExpression (collab := Sample.collaborators)
    (Sample.var "map" MoreSample.recordType)
    (NumericLiteral "0" Sample.numberType) Sample.state0
  = Ok "map[0]" Sample.state0.
Proof.
  exact (@compileElementAccessExpression_literal_key Sample.collaborators
           (Sample.var "map" MoreSample.recordType)
           (NumericLiteral "0" Sample.numberType)
           Sample.state0 Sample.state0 Sample.state0 "0" "map"
           eq_refl eq_refl eq_refl eq_refl eq_refl eq_refl eq_refl).
Defined.

End IndexedFacts.

(* ===================================================================== *)
(** ** Further properties of [transformParameters.ts] *)
(* ===================================================================== *)

Module ParameterFacts.

Import TSTransformer TransformShapes MoreTransformShapes.

Ltac run := unfold bind, ret, throw.

Section General.

Context {tr : Transforms}.

Hypothesis identifiers_defined :
  forall id st, exists paramId st',
    transformIdentifierDefined id st = Ok paramId st'.

Hypothesis expressions_keep_buffer :
  forall e st, prereqStatementsStack st <> [] ->
    exists value st',
      transformExpression e st = Ok value st' /\
      prereqStatementsStack st' <> [].

(** What the loop adds to its three accumulators. *)
Lemma transformParametersFrom_counts (l : list ParameterDeclaration) :
  forallb isIdentifierName l = true ->
  forall acc st,
    exists res st',
      transformParametersFrom l acc st = Ok res st' /\
      hasDotDotDot res = hasDotDotDot acc || existsb dotDotDotToken l /\
      List.length (parameters res) + countRest l
      = List.length (parameters acc) + List.length l /\
      List.length (statements res)
      = List.length (statements acc) + countRest l + countDefaults l.
Proof.
  induction l as [|p l IH]; intros Hnames acc st.
  - exists acc, st. simpl. rewrite orb_false_r.
    repeat split; unfold countRest, countDefaults; simpl; lia.
  - simpl in Hnames. apply andb_prop in Hnames as [Hp Hl].
    unfold isIdentifierName in Hp. simpl.
    destruct (name p) as [tsName|]; [| discriminate].
    run. destruct (identifiers_defined tsName st) as (paramId & st1 & ->).
    unfold countRest, countDefaults, hasInitializer in *. simpl.
    destruct (initializer p) as [init|];
      [ destruct (TransformerFacts.transformParamInitializer_total
                    expressions_keep_buffer paramId init st1)
          as (value & st2 & pre & rest & _ & _ & ->) | ];
      destruct (dotDotDotToken p);
      match goal with |- context [transformParametersFrom l ?a ?s] =>
        destruct (IH Hl a s) as (res & st' & -> & Hflag & Hps & Hss) end;
      simpl in Hflag, Hps, Hss; rewrite ?length_app in *; simpl in *;
      exists res, st'; rewrite Hflag, ?orb_true_r;
      repeat split; try lia; now destruct (hasDotDotDot acc).
Qed.

End General.

(** X22. A parameter that is a destructuring pattern stops the lowering
    with the error [Not implemented]: whatever follows it is not looked
    at, and no parameter list is returned. *)
Theorem transformParameters_pattern {tr : Transforms}
  (before after : list ParameterDeclaration) (param : ParameterDeclaration)
  (st : TransformState) :
  (forall id st, exists paramId st',
     transformIdentifierDefined id st = Ok paramId st') ->
  (forall e st, prereqStatementsStack st <> [] ->
     exists value st',
       transformExpression e st = Ok value st' /\
       prereqStatementsStack st' <> []) ->
  forallb isIdentifierName before = true ->
  name param = BindingPattern ->
  exists st',
    transformParameters (before ++ param :: after) st
    = Throw "Not implemented" st'.
Proof.
  intros Hids Hexprs Hbefore Hname. unfold transformParameters.
  rewrite TransformerFacts.transformParametersFrom_app.
  destruct (TransformerFacts.transformParametersFrom_total
              Hids Hexprs before Hbefore
              {| parameters := []; statements := []; hasDotDotDot := false |}
              st)
    as (earlier & stB & _ & _ & -> & _ & _).
  simpl. rewrite Hname. now exists stB.
Qed.

Lemma transformParameters_pattern_witness :
  exists st',
    transformParameters (tr := SampleTransforms.transforms)
      [SampleTransforms.paramX; MoreSampleTransforms.paramPattern;
       SampleTransforms.paramY]
      SampleTransforms.state0
    = Throw "Not implemented" st'.
Proof.
  apply (@transformParameters_pattern SampleTransforms.transforms
           [SampleTransforms.paramX] [SampleTransforms.paramY]
           MoreSampleTransforms.paramPattern SampleTransforms.state0).
  - intros id st. eexists. eexists. reflexivity.
  - intros e st Hst. eexists. eexists. split; [reflexivity | exact Hst].
  - reflexivity.
  - reflexivity.
Defined.

(** X23. What [transformParameters] returns for parameters that are all
    named by identifiers: the flag [hasDotDotDot] tells whether one of
    them is a rest parameter; a rest parameter takes no slot in the
    parameter list and every other parameter takes one; and there is
    one statement for each rest parameter and one for each default
    value, no more. *)
Theorem transformParameters_counts {tr : Transforms}
  (tsParams : list ParameterDeclaration) (st : TransformState) :
  (forall id st, exists paramId st',
     transformIdentifierDefined id st = Ok paramId st') ->
  (forall e st, prereqStatementsStack st <> [] ->
     exists value st',
       transformExpression e st = Ok value st' /\
       prereqStatementsStack st' <> []) ->
  forallb isIdentifierName tsParams = true ->
  exists res st',
    transformParameters tsParams st = Ok res st' /\
    hasDotDotDot res = existsb dotDotDotToken tsParams /\
    List.length (parameters res) + countRest tsParams
    = List.length tsParams /\
    List.length (statements res)
    = countRest tsParams + countDefaults tsParams.
Proof.
  intros Hids Hexprs Hnames.
  destruct (transformParametersFrom_counts Hids Hexprs tsParams Hnames
              {| parameters := []; statements := []; hasDotDotDot := false |}
              st)
    as (res & st' & Hrun & Hflag & Hps & Hss).
  exists res, st'. repeat split; assumption.
Qed.

Lemma transformParameters_counts_witness :
  exists res st',
    transformParameters (tr := MoreSampleTransforms.extracting)
      [SampleTransforms.paramX; MoreSampleTransforms.paramCall;
       MoreSampleTransforms.paramRest]
      SampleTransforms.state0
    = Ok res st' /\
    hasDotDotDot res = true /\
    List.length (parameters res) + 1 = 3 /\
    List.length (statements res) = 1 + 1.
Proof.
  apply (@transformParameters_counts MoreSampleTransforms.extracting
           [SampleTransforms.paramX; MoreSampleTransforms.paramCall;
            MoreSampleTransforms.paramRest]
           SampleTransforms.state0).
  - intros id st. eexists. eexists. reflexivity.
  - intros e [[|top below]] Hst; [now contradiction Hst|].
    destruct e; eexists; eexists; (split; [reflexivity | discriminate]).
  - reflexivity.
Defined.

Lemma state_eta (st : TransformState) :
  {| prereqStatementsStack := prereqStatementsStack st |} = st.
Proof. now destruct st. Qed.

(** X24. The statements that the lowering of a default value emits are
    kept for the case in which the default is used: when the transform
    of expressions only appends to the innermost buffer, they all end up
    inside the guard, before the assignment, and the buffers of the
    caller are left exactly as they were. *)
Theorem transformParamInitializer_isolated {tr : Transforms}
  (paramId : Identifier) (init : TsExpression) (st : TransformState) :
  AppendsToBuffer ->
  exists value new,
    transformExpression init (inFreshBuffer st)
    = Ok value {| prereqStatementsStack := new :: prereqStatementsStack st |}
    /\
    transformParamInitializer paramId init st
    = Ok (IfStatement
            (BinaryExpression (IdentifierExpression paramId) "==" NilLiteral)
            (new ++ [Assignment paramId value]) [])
         st.
Proof.
  intros Happends.
  destruct (Happends init [] (prereqStatementsStack st))
    as (value & new & Hvalue).
  exists value, new. simpl in Hvalue. split; [exact Hvalue|].
  rewrite (TransformerFacts.transformParamInitializer_run
             paramId init st _ value new (prereqStatementsStack st)
             Hvalue eq_refl).
  now rewrite state_eta.
Qed.

Lemma extracting_appends :
  AppendsToBuffer (tr := MoreSampleTransforms.extracting).
Proof.
  intros e top below.
  destruct e; try (eexists; exists []; simpl; unfold ret;
                   now rewrite app_nil_r).
  eexists. eexists. reflexivity.
Defined.

Lemma transformParamInitializer_isolated_witness :
  transformParamInitializer (tr := MoreSampleTransforms.extracting)
    {| luaName := "y" |} (TsOtherExpression "f()") SampleTransforms.state0
  = Ok (IfStatement
          (BinaryExpression (IdentifierExpression {| luaName := "y" |})
                            "==" NilLiteral)
          [ VariableDeclaration {| luaName := "_1" |} (NumberLiteral "f()");
            Assignment {| luaName := "y" |}
              (IdentifierExpression {| luaName := "_1" |}) ]
          [])
       SampleTransforms.state0.
Proof.
  destruct (@transformParamInitializer_isolated
              MoreSampleTransforms.extracting
              {| luaName := "y" |} (TsOtherExpression "f()")
              SampleTransforms.state0 extracting_appends)
    as (value & new & Hvalue & Hrun).
  rewrite Hrun. injection Hvalue as <- <-. reflexivity.
Defined.

(** X25. With transforms that leave the buffers of the caller alone,
    [transformParameters] is a function of its input alone: it returns
    in the state it started in, and what it returns is the description
    [Lowered], parameter by parameter and in their order, together with
    the flag of the rest parameter.  Nothing else is emitted. *)
Theorem transformParameters_lowered {tr : Transforms}
  (tsParams : list ParameterDeclaration) (st : TransformState) :
  AppendsToBuffer ->
  IdentifiersLeaveBuffers ->
  forallb isIdentifierName tsParams = true ->
  exists res,
    transformParameters tsParams st = Ok res st /\
    Lowered st tsParams (parameters res) (statements res) /\
    hasDotDotDot res = existsb dotDotDotToken tsParams.
Proof.
  intros Happends Hids Hnames. unfold transformParameters.
  assert (Hgen : forall l, forallb isIdentifierName l = true ->
    forall acc,
      exists ids stmts,
        Lowered st l ids stmts /\
        transformParametersFrom l acc st
        = Ok {| parameters := (parameters acc ++ ids)%list;
                statements := (statements acc ++ stmts)%list;
                hasDotDotDot := hasDotDotDot acc || existsb dotDotDotToken l |}
             st).
  { clear tsParams Hnames.
    induction l as [|p l IH]; intros Hnames acc.
    - exists [], []. split; [constructor|].
      simpl. rewrite !app_nil_r, orb_false_r. now destruct acc.
    - simpl in Hnames. apply andb_prop in Hnames as [Hp Hl].
      unfold isIdentifierName in Hp.
      destruct (name p) as [tsName|] eqn:Hname; [| discriminate].
      destruct (Hids tsName st) as (paramId & Hid).
      destruct (initializer p) as [init|] eqn:Hinit.
      + destruct (transformParamInitializer_isolated paramId init st
                    Happends) as (value & new & Hvalue & Hrun).
        fold (defaultGuard paramId new value) in Hrun.
        assert (Hstep :
          transformParametersFrom (p :: l) acc st
          = transformParametersFrom l
              {| parameters :=
                   if dotDotDotToken p then parameters acc
                   else (parameters acc ++ [paramId])%list;
                 statements :=
                   (statements acc ++
                    (if dotDotDotToken p then [restBinding paramId] else [])
                    ++ [defaultGuard paramId new value])%list;
                 hasDotDotDot :=
                   if dotDotDotToken p then true else hasDotDotDot acc |}
              st).
        { cbn [transformParametersFrom]. rewrite Hname, Hinit. run.
          now rewrite Hid, Hrun. }
        match type of Hstep with
        | _ = transformParametersFrom l ?a st =>
            destruct (IH Hl a) as (ids & stmts & Hlowered & Hrest)
        end.
        exists ((if dotDotDotToken p then [] else [paramId]) ++ ids)%list,
               ((if dotDotDotToken p then [restBinding paramId] else [])
                ++ [defaultGuard paramId new value] ++ stmts)%list.
        split.
        * eapply LoweredCons; try eassumption.
          rewrite Hinit. now exists value, new.
        * rewrite Hstep, Hrest.
          cbn [parameters statements hasDotDotDot existsb].
          destruct (dotDotDotToken p); simpl;
            rewrite <- ?app_assoc; simpl; rewrite ?orb_true_r;
            try reflexivity; now destruct (hasDotDotDot acc).
      + assert (Hstep :
          transformParametersFrom (p :: l) acc st
          = transformParametersFrom l
              {| parameters :=
                   if dotDotDotToken p then parameters acc
                   else (parameters acc ++ [paramId])%list;
                 statements :=
                   (statements acc ++
                    (if dotDotDotToken p then [restBinding paramId] else []))
                   %list;
                 hasDotDotDot :=
                   if dotDotDotToken p then true else hasDotDotDot acc |}
              st).
        { cbn [transformParametersFrom]. rewrite Hname, Hinit. run.
          now rewrite Hid. }
        match type of Hstep with
        | _ = transformParametersFrom l ?a st =>
            destruct (IH Hl a) as (ids & stmts & Hlowered & Hrest)
        end.
        exists ((if dotDotDotToken p then [] else [paramId]) ++ ids)%list,
               ((if dotDotDotToken p then [restBinding paramId] else [])
                ++ [] ++ stmts)%list.
        split.
        * eapply LoweredCons; try eassumption. now rewrite Hinit.
        * rewrite Hstep, Hrest.
          cbn [parameters statements hasDotDotDot existsb].
          destruct (dotDotDotToken p); simpl;
            rewrite <- ?app_assoc; simpl; rewrite ?orb_true_r;
            try reflexivity; now destruct (hasDotDotDot acc). }
  destruct (Hgen tsParams Hnames
              {| parameters := []; statements := []; hasDotDotDot := false |})
    as (ids & stmts & Hlowered & Hrun).
  eexists. split; [exact Hrun|]. split; [exact Hlowered | reflexivity].
Qed.

Lemma transformParameters_lowered_witness :
  let tsParams :=
    [SampleTransforms.paramX; MoreSampleTransforms.paramCall;
     MoreSampleTransforms.paramRest] in
  exists res,
    transformParameters (tr := MoreSampleTransforms.extracting)
      tsParams SampleTransforms.state0
    = Ok res SampleTransforms.state0 /\
    Lowered (tr := MoreSampleTransforms.extracting)
      SampleTransforms.state0 tsParams (parameters res) (statements res) /\
    hasDotDotDot res = true.
Proof.
  apply (@transformParameters_lowered MoreSampleTransforms.extracting
           [SampleTransforms.paramX; MoreSampleTransforms.paramCall;
            MoreSampleTransforms.paramRest]
           SampleTransforms.state0 extracting_appends).
  - intros id st. eexists. reflexivity.
  - reflexivity.
Defined.

(** The example of the witness, run: the binding of the call that the
    default value needs is inside the guard, and the rest parameter is
    a local of the body. *)
Example transformParameters_extracting_run :
  transformParameters (tr := MoreSampleTransforms.extracting)
    [SampleTransforms.paramX; MoreSampleTransforms.paramCall;
     MoreSampleTransforms.paramRest]
    SampleTransforms.state0
  = Ok {| parameters := [ {| luaName := "x" |}; {| luaName := "y" |} ];
          statements :=
            [ IfStatement
                (BinaryExpression (IdentifierExpression {| luaName := "y" |})
                                  "==" NilLiteral)
                [ VariableDeclaration {| luaName := "_1" |}
                    (NumberLiteral "f()");
                  Assignment {| luaName := "y" |}
                    (IdentifierExpression {| luaName := "_1" |}) ]
                [];
              VariableDeclaration {| luaName := "rest" |}
                (Array [VarArgsLiteral]) ];
          hasDotDotDot := true |}
       SampleTransforms.state0.
Proof. reflexivity. Qed.

End ParameterFacts.
